(** * fpp_sle.fpp.get_arrival_times: arrival times from a rate process

    A shallow embedding of [src/fpp_sle/fpp/get_arrival_times.py] and the
    properties of [from_inhomogeneous_poisson_process], [from_cumsum],
    [check_types] and [from_cox_process].

    Modelling choices, all visible in the definitions below:
    - a one-dimensional [np.ndarray] of dtype float64 is a [list float] over
      Rocq's primitive binary64 floats; a Python scalar float met in array
      arithmetic is a one-element array, which broadcasts like the scalar;
    - Python exceptions are the constructors of [exn]; a function returns an
      [outcome], which is a value, a raised exception, or [OutOfFuel] when the
      [while] loop is still running after [fuel] rounds;
    - the shared generator behind [np.random] is an explicit state threaded
      through the computation (the monad [M]); numpy's generator and [np.exp]
      are external to the repository and enter through the interfaces
      [RandomState] and [Libm], each with one executable instance. *)

From Stdlib Require Import Floats ZArith List Lia Bool PeanoNat.
From Stdlib Require Import Orders Sorting.Mergesort Sorting.Sorted Sorting.Permutation.
Import ListNotations.

(** ** Exceptions and outcomes *)

Inductive exn : Type :=
| TypeError
| ValueError
| IndexError
| ZeroDivisionError
| NotImplementedError.

Inductive outcome (A : Type) : Type :=
| Ok (a : A)
| Raise (e : exn)
| OutOfFuel.

Arguments Ok {A} a.
Arguments Raise {A} e.
Arguments OutOfFuel {A}.

Definition obind {A B : Type} (o : outcome A) (k : A -> outcome B) : outcome B :=
  match o with
  | Ok a => k a
  | Raise e => Raise e
  | OutOfFuel => OutOfFuel
  end.

(** ** External numerical interfaces *)

(** [np.exp] on one float64, with three laws of C's [exp]: exp(+-0) is
    exactly 1 and a NaN argument gives NaN (ISO C, Annex F), and the result
    is at least 1 on a non-negative argument, as for any rounding of the
    exact value. *)
Class Libm : Type := {
  exp : float -> float;
  exp_zero : forall x, (x =? 0)%float = true -> exp x = 1%float;
  exp_nan : forall x, is_nan x = true -> exp x = nan;
  exp_ge_one : forall x, (0 <=? x)%float = true -> (1 <=? exp x)%float = true
}.

(** The legacy global generator of [np.random]: [random_sample] draws one
    double in the half-open interval [0, 1) and [random_below n] one index
    below [n] (numpy's [randint(0, n)]); both advance the state. *)
Class RandomState : Type := {
  rng : Type;
  random_sample : rng -> float * rng;
  random_below : nat -> rng -> nat * rng;
  random_sample_range : forall g,
    (0 <=? fst (random_sample g))%float = true /\
    (fst (random_sample g) <? 1)%float = true;
  random_below_range : forall n g, (0 < n)%nat -> (fst (random_below n g) < n)%nat
}.

(** ** Computations over the generator state *)

Section StateMonad.
Context {RS : RandomState}.

Definition M (A : Type) : Type := rng -> outcome A * rng.

Definition ret {A : Type} (a : A) : M A := fun g => (Ok a, g).

Definition raise {A : Type} (e : exn) : M A := fun g => (Raise e, g).

Definition lift {A : Type} (o : outcome A) : M A := fun g => (o, g).

Definition bind {A B : Type} (m : M A) (k : A -> M B) : M B :=
  fun g =>
    match m g with
    | (Ok a, g') => k a g'
    | (Raise e, g') => (Raise e, g')
    | (OutOfFuel, g') => (OutOfFuel, g')
    end.
End StateMonad.

Declare Scope py_scope.
Delimit Scope py_scope with py.
Notation "x <- m ;; k" := (bind m (fun x => k))
  (at level 61, m at next level, right associativity) : py_scope.
Open Scope py_scope.

(** ** Python values reaching the decorated functions *)

(** The values an argument can take: a one-dimensional float64 array; a
    callable rate with its keyword arguments fixed, from an array of times
    to an array of rates (a scalar result is a one-element array); an
    [int]; a [bool]; a [float]; [None]. *)
Inductive pyval : Type :=
| PyNdarray (a : list float)
| PyCallable (f : list float -> list float)
| PyInt (n : Z)
| PyBool (b : bool)
| PyFloat (x : float)
| PyNone.

(** [isinstance(v, np.ndarray)] *)
Definition isinstance_ndarray (v : pyval) : bool :=
  match v with PyNdarray _ => true | _ => false end.

(** [callable(v)] *)
Definition callable (v : pyval) : bool :=
  match v with PyCallable _ => true | _ => false end.

(** [isinstance(v, int)]; [bool] is a subclass of [int]. *)
Definition isinstance_int (v : pyval) : bool :=
  match v with PyInt _ | PyBool _ => true | _ => false end.

(** [any(v < 0)] for an array [v]. *)
Definition any_negative (a : list float) : bool :=
  existsb (fun x => (x <? 0)%float) a.

(** The first argument as [check_types_wrapper] lets it through: an array
    with no negative element, or a callable. *)
Definition accepted_rate (v : pyval) : bool :=
  match v with
  | PyNdarray r => negb (any_negative r)
  | PyCallable _ => true
  | _ => false
  end.

(** ** numpy array operations used by the module *)

(** Elementwise binary operation with numpy's broadcasting rule for
    one-dimensional operands: equal lengths pair up, a length-one operand is
    stretched, anything else is [ValueError]. *)
Definition broadcast {A : Type} (f : float -> float -> A) (a b : list float)
  : outcome (list A) :=
  if (length a =? length b)%nat then Ok (map (fun p => f (fst p) (snd p)) (combine a b))
  else match a, b with
       | [x], _ => Ok (map (f x) b)
       | _, [y] => Ok (map (fun x => f x y) a)
       | _, _ => Raise ValueError
       end.

(** [a[mask]] for a boolean mask: the mask must have the length of [a]. *)
Fixpoint select (a : list float) (mask : list bool) : list float :=
  match a, mask with
  | x :: a', b :: mask' => if b then x :: select a' mask' else select a' mask'
  | _, _ => []
  end.

Definition boolean_index (a : list float) (mask : list bool) : outcome (list float) :=
  if (length a =? length mask)%nat then Ok (select a mask) else Raise IndexError.

(** [np.sum] of one row, accumulated from the left starting at 0 (numpy
    adds long rows pairwise, which can differ in the last bits). *)
Definition np_sum (row : list float) : float :=
  fold_left PrimFloat.add row 0%float.

(** The rows of [a.reshape((n, k))], in C order. *)
Fixpoint rows (n k : nat) (a : list float) : list (list float) :=
  match n with
  | O => []
  | S n' => firstn k a :: rows n' k (skipn k a)
  end.

Definition reshape (a : list float) (n k : nat) : outcome (list (list float)) :=
  if (length a =? n * k)%nat then Ok (rows n k a) else Raise ValueError.

(** numpy's sorting order on float64: ascending, NaN last. *)
Definition np_le (x y : float) : bool := (x <=? y)%float || is_nan y.

Lemma SFcompare_antisym (x y : spec_float) :
  SFcompare y x = option_map CompOpp (SFcompare x y).
Proof.
  destruct x as [[]|[]| |[] mx ex], y as [[]|[]| |[] my ey]; simpl; try reflexivity;
    rewrite (Z.compare_antisym ex ey); destruct (ex ?= ey)%Z; simpl; try reflexivity;
    rewrite (Pos.compare_cont_antisym mx my Eq); reflexivity.
Qed.

Lemma np_le_total (x y : float) : np_le x y = true \/ np_le y x = true.
Proof.
  unfold np_le, is_nan.
  rewrite !FloatAxioms.leb_spec, !FloatAxioms.eqb_spec.
  unfold SFleb, SFeqb. rewrite (SFcompare_antisym (Prim2SF x) (Prim2SF y)).
  destruct (Prim2SF x) as [[]|[]| |[] mx ex], (Prim2SF y) as [[]|[]| |[] my ey];
    simpl; auto;
    destruct (ex ?= ey)%Z; simpl; auto;
    try rewrite !Pos.compare_cont_refl; simpl; auto;
    destruct (Pos.compare_cont Eq mx my); simpl; auto.
Qed.

Module NpOrder <: TotalLeBool.
Definition t : Type := float.
Definition leb : t -> t -> bool := np_le.
Definition leb_total : forall x y, leb x y = true \/ leb y x = true := np_le_total.
End NpOrder.

Module NpSort := Sort NpOrder.

(** [a.sort()] *)
Definition np_sort (a : list float) : list float := NpSort.sort a.

(** ** The module's functions *)

Section GetArrivalTimes.
Context {L : Libm} {RS : RandomState}.

(** [np.random.uniform(size=n)]: [n] successive draws from [0, 1). *)
Fixpoint uniform (n : nat) (g : rng) : list float * rng :=
  match n with
  | O => ([], g)
  | S n' =>
      let (u, g1) := random_sample g in
      let (us, g2) := uniform n' g1 in
      (u :: us, g2)
  end.

(** [size] indices below [pop_size], drawn one after the other. *)
Fixpoint randint (pop_size size : nat) (g : rng) : list nat * rng :=
  match size with
  | O => ([], g)
  | S size' =>
      let (i, g1) := random_below pop_size g in
      let (idx, g2) := randint pop_size size' g1 in
      (i :: idx, g2)
  end.

(** [np.random.choice(a, size=size)]: sampling with replacement, uniform
    weights.  A negative [size], or an empty population with a non-zero
    [size], is [ValueError]; otherwise [a[idx]] for [size] drawn indices. *)
Definition choice (a : list float) (size : Z) : M (list float) :=
  fun g =>
    if (size <? 0)%Z then (Raise ValueError, g)
    else match a, Z.to_nat size with
         | [], S _ => (Raise ValueError, g)
         | _, n =>
             let (idx, g') := randint (length a) n g in
             (Ok (map (fun i => nth i a 0%float) idx), g')
         end.

(** Lines 39-48: the checks of [check_types_wrapper] on the positional
    arguments, then the call of the decorated function [func] on the same arguments. *)
Definition check_types_wrapper {A : Type} (args : list pyval) (func : M A) : M A :=
  match nth_error args 0 with
  | None => raise IndexError
  | Some a0 =>
      if negb (isinstance_ndarray a0) && negb (callable a0) then raise TypeError
      else if match a0 with PyNdarray r => any_negative r | _ => false end
      then raise ValueError
      else
        match nth_error args 1 with
        | None => raise IndexError
        | Some a1 =>
            if negb (isinstance_ndarray a1) then raise TypeError
            else
              match nth_error args 2 with
              | None => raise IndexError
              | Some a2 =>
                  if negb (isinstance_int a2) then raise TypeError
                  else func
              end
        end
  end.

(** [a[::ratio]] for [ratio >= 1]: an element is picked, then [ratio - 1]
    elements are passed over; [k] counts the elements still to pass over. *)
Fixpoint stride_from (ratio k : nat) (a : list float) : list float :=
  match a with
  | [] => []
  | x :: a' =>
      match k with
      | O => x :: stride_from ratio (ratio - 1) a'
      | S k' => stride_from ratio k' a'
      end
  end.

Definition strided (ratio : nat) (a : list float) : list float :=
  stride_from ratio 0 a.

(** [a[:n]] for a Python [int] [n]: a negative [n] counts from the end. *)
Definition slice_to (n : Z) (a : list float) : list float :=
  if (0 <=? n)%Z then firstn (Z.to_nat n) a
  else firstn (length a - Z.to_nat (- n)) a.

(** [np.cumsum]: the first element as it is, then the running sums. *)
Fixpoint cumsum_from (acc : float) (a : list float) : list float :=
  match a with
  | [] => []
  | x :: a' => (acc + x)%float :: cumsum_from (acc + x)%float a'
  end.

Definition cumsum (a : list float) : list float :=
  match a with
  | [] => []
  | x :: a' => x :: cumsum_from x a'
  end.

(** Lines 140-151: the body of [from_cumsum], reached through
    [check_types_wrapper] like the other bodies.  The warning it prints first
    is not part of its result and is left out; a callable rate is taken to
    return an array.  [int(len(rate_realization) / total_pulses)] truncates
    towards zero and raises [ZeroDivisionError] for zero pulses. *)
Definition from_cumsum_func (rate times total_pulses : pyval) (same_shape : bool)
  : outcome (list float) :=
  match times, total_pulses with
  | PyNdarray ts, (PyInt _ | PyBool _) =>
      let n := match total_pulses with
               | PyInt n => n
               | PyBool b => Z.b2z b
               | _ => 0%Z
               end in
      obind (match rate with
             | PyNdarray r => Ok r
             | PyCallable f => Ok (f ts)
             | _ => Raise TypeError
             end) (fun rate_realization =>
      obind (if negb same_shape
             then if (n =? 0)%Z then Raise ZeroDivisionError
                  else
                    let ratio :=
                      Z.max (Z.quot (Z.of_nat (length rate_realization)) n) 1 in
                    Ok (slice_to n (strided (Z.to_nat ratio) rate_realization))
             else Ok rate_realization) (fun rate_realization =>
      if negb (Z.of_nat (length rate_realization) =? n)%Z then Raise ValueError
      else match ts with
           | [] => Raise IndexError
           | _ :: _ =>
               Ok (map (fun c => c / np_sum rate_realization * last ts 0)%float
                     (cumsum rate_realization))
           end))
  | _, _ => Raise TypeError
  end.

(** Line 93: [from_cumsum] as decorated with [@check_types]. *)
Definition from_cumsum (rate times total_pulses : pyval) (same_shape : bool)
  : M (list float) :=
  check_types_wrapper [rate; times; total_pulses]
    (lift (from_cumsum_func rate times total_pulses same_shape)).

(** Lines 154-158: [from_cox_process], called with its four parameters. *)
Definition from_cox_process_func (rate same_shape times mu : pyval)
  : M (list float * float) :=
  raise NotImplementedError.

Definition from_cox_process (rate same_shape times mu : pyval)
  : M (list float * float) :=
  check_types_wrapper [rate; same_shape; times; mu]
    (from_cox_process_func rate same_shape times mu).

(** Lines 209-212: the rate array summed over [len(times)] blocks.
    [int(len(rate) / len(times))] is the integer quotient (the float
    division is exact enough below 2^53 elements); the division raises
    [ZeroDivisionError] on an empty time axis. *)
Definition align_rate (rate times : list float) : outcome (list float) :=
  if (length times =? 0)%nat then Raise ZeroDivisionError
  else
    let new_length := (length rate / length times)%nat in
    let nearest_multiple := (length times * new_length)%nat in
    obind (reshape (firstn nearest_multiple rate) (length times) new_length)
      (fun reshaped => Ok (map np_sum reshaped)).

(** Lines 204-213: the rate the loop works with. *)
Definition prepare_rate (rate : pyval) (times : list float) (same_shape : bool)
  : outcome pyval :=
  match rate with
  | PyNdarray r =>
      if negb same_shape
      then obind (align_rate r times) (fun r' => Ok (PyNdarray r'))
      else Ok rate
  | _ => Ok rate
  end.

(** Line 216: [delta = times[1] - times[0]]. *)
Definition time_step (times : list float) : outcome float :=
  match times with
  | t0 :: t1 :: _ => Ok (t1 - t0)%float
  | _ => Raise IndexError
  end.

(** Lines 217-220: [avg_rate]. *)
Definition average_rate (rate : pyval) (times : list float) (delta : float)
  : outcome (list float) :=
  match rate with
  | PyNdarray r => Ok r
  | PyCallable f =>
      obind (broadcast PrimFloat.add (f times) (f (map (fun t => t + delta)%float times)))
        (fun s => Ok (map (fun x => x / 2)%float s))
  | _ => Raise TypeError
  end.

(** Line 221: [avg_prob = 1 - np.exp(-avg_rate * delta)]. *)
Definition acceptance (delta : float) (avg_rate : list float) : list float :=
  map (fun a => 1 - exp (- a * delta))%float avg_rate.

Definition average_probability (rate : pyval) (times : list float)
  : outcome (list float) :=
  obind (time_step times) (fun delta =>
  obind (average_rate rate times delta) (fun avg_rate =>
  Ok (acceptance delta avg_rate))).

(** Lines 216-223: one round of the loop body, from the candidates so far to
    the candidates after the round. *)
Definition round (rate : pyval) (times arrival_times : list float) : M (list float) :=
  avg_prob <- lift (average_probability rate times) ;;
  rand_throws <- (fun g => let (us, g') := uniform (length times) g in (Ok us, g')) ;;
  mask <- lift (broadcast PrimFloat.ltb rand_throws avg_prob) ;;
  accepted <- lift (boolean_index times mask) ;;
  ret (arrival_times ++ accepted).

(** Lines 215-223: the [while] loop, for at most [fuel] rounds. *)
Fixpoint accumulate (fuel : nat) (rate : pyval) (times : list float)
  (total_pulses : Z) (arrival_times : list float) : M (list float) :=
  if (Z.of_nat (length arrival_times) <? total_pulses)%Z then
    match fuel with
    | O => lift OutOfFuel
    | S fuel' =>
        arrival_times' <- round rate times arrival_times ;;
        accumulate fuel' rate times total_pulses arrival_times'
    end
  else ret arrival_times.

(** Lines 204-226: the body of [from_inhomogeneous_poisson_process].  It is
    reached through [check_types_wrapper] only, with an array for [times]
    and an [int] for [total_pulses] (a [bool] counts as 0 or 1); any other
    value is a [TypeError] at its first use. *)
Definition from_inhomogeneous_poisson_process_func (fuel : nat)
  (rate times total_pulses : pyval) (same_shape : bool) : M (list float) :=
  match times, total_pulses with
  | PyNdarray ts, (PyInt _ | PyBool _) =>
      let n := match total_pulses with
               | PyInt n => n
               | PyBool b => Z.b2z b
               | _ => 0%Z
               end in
      rate' <- lift (prepare_rate rate ts same_shape) ;;
      arrival_times <- accumulate fuel rate' ts n [] ;;
      arrival_times <- choice arrival_times n ;;
      ret (np_sort arrival_times)
  | _, _ => raise TypeError
  end.

(** Line 161: the function as decorated with [@check_types]. *)
Definition from_inhomogeneous_poisson_process (fuel : nat)
  (rate times total_pulses : pyval) (same_shape : bool) : M (list float) :=
  check_types_wrapper [rate; times; total_pulses]
    (from_inhomogeneous_poisson_process_func fuel rate times total_pulses same_shape).

End GetArrivalTimes.

(** ** Predicates used in the statements *)

(** Sign classes of a float64 through its IEEE 754 decoding: not strictly
    positive (zero, negative or NaN), sign bit set or NaN, sign bit clear
    or NaN. *)
Definition sf_not_positive (x : spec_float) : bool :=
  match x with
  | S754_infinity false | S754_finite false _ _ => false
  | _ => true
  end.

Definition sf_sign_set (x : spec_float) : bool :=
  match x with
  | S754_zero s | S754_infinity s | S754_finite s _ _ => s
  | S754_nan => true
  end.

Definition sf_sign_clear (x : spec_float) : bool :=
  match x with
  | S754_zero s | S754_infinity s | S754_finite s _ _ => negb s
  | S754_nan => true
  end.

(** An array of zeros (of either sign). *)
Definition all_zero (a : list float) : bool := forallb is_zero a.

(** The lengths numpy accepts against an array of [n] values: [n] values, or
    a single value, which is broadcast. *)
Definition fits (m n : nat) : bool := (m =? n)%nat || (m =? 1)%nat.

(** A rate that is uniformly zero: an all-zero array, or a callable that
    returns zeros, one per time or a single one. *)
Definition uniformly_zero (rate : pyval) : Prop :=
  match rate with
  | PyNdarray r => all_zero r = true
  | PyCallable f =>
      forall xs, fits (length (f xs)) (length xs) = true /\ all_zero (f xs) = true
  | _ => False
  end.

(** A callable rate that is negative everywhere. *)
Definition uniformly_negative (f : list float -> list float) : Prop :=
  forall xs, fits (length (f xs)) (length xs) = true /\
             forallb (fun r => (r <? 0)%float) (f xs) = true.

(** A time axis whose first step is positive. *)
Definition positive_step (times : list float) : bool :=
  match time_step times with
  | Ok delta => (0 <? delta)%float
  | _ => false
  end.

(** The shape precondition on an array rate used without alignment: one
    rate value per time sample (or a single value). *)
Definition rate_fits_times (rate : pyval) (times : list float) (same_shape : bool)
  : bool :=
  match rate with
  | PyNdarray r => negb same_shape || fits (length r) (length times)
  | _ => true
  end.

(** The thinning formula of the specification,
    [probability = 1 - exp(-avg_rate * delta)], for one time step. *)
Definition thinning {L : Libm} (delta avg_rate : float) : float :=
  (1 - exp (- avg_rate * delta))%float.

(** Some time step is accepted at every throw: the call passes the argument
    checks and the rate it prepares gives a step an acceptance probability
    of at least 1 (a uniform throw is below 1). *)
Definition sure_step {L : Libm} (rate : pyval) (times : list float)
  (same_shape : bool) : bool :=
  accepted_rate rate &&
  match prepare_rate rate times same_shape with
  | Ok rate' =>
      match average_probability rate' times with
      | Ok avg_prob =>
          fits (length avg_prob) (length times) &&
          existsb (fun p => (1 <=? p)%float) avg_prob
      | _ => false
      end
  | _ => false
  end.

(** The rate values [from_cumsum] sums for an array rate and
    [total_pulses = n <> 0]: the array itself, or [rate[::ratio][:n]]. *)
Definition realization (r : list float) (n : Z) (same_shape : bool) : list float :=
  if same_shape then r
  else slice_to n (strided (Z.to_nat (Z.max (Z.quot (Z.of_nat (length r)) n) 1)) r).

(** ** Inputs used in the examples *)

(** [times = [0, 1, ..., 9]], step 1. *)
Definition ts10 : list float := [0; 1; 2; 3; 4; 5; 6; 7; 8; 9]%float.

(** A callable rate that is -1 at every time. *)
Definition minus_one_rate (times : list float) : list float :=
  map (fun _ => (-1)%float) times.

(** A callable rate that is 0 at every time. *)
Definition zero_rate (times : list float) : list float :=
  map (fun _ => 0%float) times.

(** A callable rate that is 5 at every time. *)
Definition five_rate (times : list float) : list float :=
  map (fun _ => 5%float) times.

(** ** Executable instances of the external interfaces *)

(** A truncated Taylor series in Horner form, [1 + x/k * (1 + x/(k+1) * ...)],
    evaluated at [x / 2^10] and squared ten times, then clamped so that the
    laws of [Libm] hold by construction. *)
Fixpoint exp_horner (n : nat) (k x : float) : float :=
  match n with
  | O => 1
  | S n' => 1 + x / k * exp_horner n' (k + 1) x
  end%float.

Fixpoint exp_squaring (n : nat) (x : float) : float :=
  match n with
  | O => exp_horner 20 1 x
  | S n' => let y := exp_squaring n' (x / 2) in y * y
  end%float.

Definition exp_taylor (x : float) : float := exp_squaring 10 x.

Definition exp_model (x : float) : float :=
  if is_nan x then nan
  else if (0 <=? x)%float
       then (let p := exp_taylor x in if (1 <=? p)%float then p else 1%float)
       else (let p := exp_taylor (- x) in if (1 <=? p)%float then (1 / p)%float else 1%float).

Lemma float_eqb_zero (x : float) :
  (x =? 0)%float = true -> x = 0%float \/ x = (-0)%float.
Proof.
  rewrite FloatAxioms.eqb_spec. intros H.
  rewrite <- (SF2Prim_Prim2SF x).
  destruct (Prim2SF x) as [[]|[]| |[] m e]; try discriminate H; auto.
Qed.

Lemma float_leb_not_nan (x y : float) :
  (x <=? y)%float = true -> is_nan x = false /\ is_nan y = false.
Proof.
  unfold is_nan. rewrite FloatAxioms.leb_spec, !FloatAxioms.eqb_spec.
  unfold SFleb, SFeqb.
  destruct (Prim2SF x) as [[]|[]| |[] mx ex], (Prim2SF y) as [[]|[]| |[] my ey];
    simpl; try discriminate; intros _; rewrite ?Z.compare_refl, ?Pos.compare_cont_refl;
    auto.
Qed.

Lemma exp_model_zero (x : float) : (x =? 0)%float = true -> exp_model x = 1%float.
Proof.
  intros H. destruct (float_eqb_zero x H) as [-> | ->]; vm_compute; reflexivity.
Qed.

Lemma exp_model_nan (x : float) : is_nan x = true -> exp_model x = nan.
Proof. intros H. unfold exp_model. rewrite H. reflexivity. Qed.

Lemma exp_model_ge_one (x : float) :
  (0 <=? x)%float = true -> (1 <=? exp_model x)%float = true.
Proof.
  intros H. unfold exp_model.
  destruct (float_leb_not_nan _ _ H) as [_ ->]. rewrite H.
  destruct (1 <=? exp_taylor x)%float eqn:E; [exact E | reflexivity].
Qed.

#[export] Instance libm_model : Libm := {
  exp := exp_model;
  exp_zero := exp_model_zero;
  exp_nan := exp_model_nan;
  exp_ge_one := exp_model_ge_one
}.

(** A 64-bit linear congruential generator.  A sample is one of the sixteen
    multiples of 1/16 in [0, 1), picked by the top four bits; an index is
    the top half of the state reduced modulo the bound. *)
Definition lcg_next (s : N) : N :=
  ((6364136223846793005 * s + 1442695040888963407) mod 2 ^ 64)%N.

Definition unit_grid : list float :=
  [0; 0.0625; 0.125; 0.1875; 0.25; 0.3125; 0.375; 0.4375;
   0.5; 0.5625; 0.625; 0.6875; 0.75; 0.8125; 0.875; 0.9375]%float.

Definition lcg_sample (s : N) : float * N :=
  let s' := lcg_next s in (nth (N.to_nat (s' / 2 ^ 60)) unit_grid 0%float, s').

Definition lcg_below (n : nat) (s : N) : nat * N :=
  let s' := lcg_next s in (N.to_nat ((s' / 2 ^ 32) mod N.of_nat n), s').

Lemma lcg_sample_range (s : N) :
  (0 <=? fst (lcg_sample s))%float = true /\ (fst (lcg_sample s) <? 1)%float = true.
Proof.
  unfold lcg_sample. cbv zeta. cbn [fst].
  generalize (N.to_nat (lcg_next s / 2 ^ 60)); intros k.
  destruct (nth_in_or_default k unit_grid 0%float) as [Hin | ->];
    [| split; reflexivity].
  revert Hin. generalize (nth k unit_grid 0%float); intros u Hin.
  unfold unit_grid in Hin. simpl in Hin.
  repeat (destruct Hin as [<- | Hin]; [split; reflexivity |]).
  contradiction.
Qed.

Lemma lcg_below_range (n : nat) (s : N) : (0 < n)%nat -> (fst (lcg_below n s) < n)%nat.
Proof.
  intros Hn. unfold lcg_below. cbv zeta. cbn [fst].
  pose proof (N.mod_upper_bound (lcg_next s / 2 ^ 32) (N.of_nat n)) as Hb. lia.
Qed.

#[export] Instance lcg : RandomState := {
  rng := N;
  random_sample := lcg_sample;
  random_below := lcg_below;
  random_sample_range := lcg_sample_range;
  random_below_range := lcg_below_range
}.

(** ** Facts on float64 arithmetic *)

Section FloatFacts.
Open Scope float_scope.

Lemma mul_zero_l (x d : float) :
  is_zero x = true ->
  is_zero (x * d) = true \/ (is_nan (x * d) = true /\ is_finite d = false).
Proof.
  unfold is_zero, is_finite, is_infinity, is_nan.
  rewrite !FloatAxioms.eqb_spec, abs_spec, mul_spec. unfold SFeqb, SF64mul.
  change (Prim2SF zero) with (S754_zero false).
  change (Prim2SF infinity) with (S754_infinity false).
  destruct (Prim2SF x) as [[]|[]| |[] mx ex]; try discriminate; intros _;
    destruct (Prim2SF d) as [[]|[]| |[] md ed]; simpl; auto.
Qed.

Lemma opp_zero (x : float) : is_zero x = true -> is_zero (- x) = true.
Proof. intros H. destruct (float_eqb_zero x H) as [-> | ->]; reflexivity. Qed.

Lemma add_zero (x y : float) : is_zero x = true -> is_zero y = true -> is_zero (x + y) = true.
Proof.
  intros Hx Hy.
  destruct (float_eqb_zero x Hx) as [-> | ->], (float_eqb_zero y Hy) as [-> | ->];
    reflexivity.
Qed.

Lemma half_zero (x : float) : is_zero x = true -> is_zero (x / 2) = true.
Proof. intros H. destruct (float_eqb_zero x H) as [-> | ->]; reflexivity. Qed.

Lemma ltb_not_positive (u p : float) :
  (0 <=? u) = true -> sf_not_positive (Prim2SF p) = true -> (u <? p) = false.
Proof.
  rewrite FloatAxioms.leb_spec, FloatAxioms.ltb_spec. unfold SFleb, SFltb.
  change (Prim2SF 0) with (S754_zero false).
  destruct (Prim2SF u) as [[]|[]| |[] mu eu], (Prim2SF p) as [[]|[]| |[] mp ep];
    simpl; intros Hu Hp; try reflexivity; discriminate.
Qed.

Lemma binary_round_aux_sign (s : bool) (m e : Z) (l : location) :
  match binary_round_aux prec emax s m e l with
  | S754_zero s' | S754_infinity s' | S754_finite s' _ _ => s' = s
  | S754_nan => True
  end.
Proof.
  unfold binary_round_aux.
  destruct (shr_fexp prec emax m e l) as [mrs' e'].
  destruct (shr_fexp prec emax _ e' loc_Exact) as [mrs'' e''].
  destruct (shr_m mrs''); [reflexivity | | exact I].
  destruct (e'' <=? emax - prec)%Z; reflexivity.
Qed.

Lemma binary_round_sign (s : bool) (m : positive) (e : Z) :
  match binary_round prec emax s m e with
  | S754_zero s' | S754_infinity s' | S754_finite s' _ _ => s' = s
  | S754_nan => True
  end.
Proof.
  unfold binary_round.
  destruct (shl_align m e _) as [mz ez]. apply binary_round_aux_sign.
Qed.

Lemma mul_sign_clear (x d : float) :
  sf_sign_clear (Prim2SF x) = true -> (0 <? d) = true ->
  sf_sign_clear (Prim2SF (x * d)) = true.
Proof.
  rewrite mul_spec, FloatAxioms.ltb_spec. unfold SFltb, SF64mul, SFmul.
  change (Prim2SF 0) with (S754_zero false).
  destruct (Prim2SF x) as [[]|[]| |[] mx ex], (Prim2SF d) as [[]|[]| |[] md ed];
    simpl; intros Hx Hd; try reflexivity; try discriminate.
  pose proof (binary_round_aux_sign false (Z.pos (mx * md)) (ex + ed) loc_Exact) as H.
  simpl xorb.
  destruct (binary_round_aux prec emax false (Z.pos (mx * md)) (ex + ed) loc_Exact);
    simpl; subst; reflexivity.
Qed.

Lemma opp_sign (x : float) :
  sf_sign_set (Prim2SF x) = true -> sf_sign_clear (Prim2SF (- x)) = true.
Proof.
  rewrite opp_spec. destruct (Prim2SF x) as [[]|[]| |[] mx ex]; simpl; auto.
Qed.

Lemma negative_sign_set (x : float) : (x <? 0) = true -> sf_sign_set (Prim2SF x) = true.
Proof.
  rewrite FloatAxioms.ltb_spec. unfold SFltb. change (Prim2SF 0) with (S754_zero false).
  destruct (Prim2SF x) as [[]|[]| |[] mx ex]; simpl; auto; discriminate.
Qed.

Lemma sign_clear_cases (y : float) :
  sf_sign_clear (Prim2SF y) = true -> is_nan y = true \/ (0 <=? y) = true.
Proof.
  unfold is_nan. rewrite FloatAxioms.eqb_spec, FloatAxioms.leb_spec. unfold SFeqb, SFleb.
  change (Prim2SF 0) with (S754_zero false).
  destruct (Prim2SF y) as [[]|[]| |[] my ey]; simpl; auto; discriminate.
Qed.

Lemma add_sign_set (x y : float) :
  sf_sign_set (Prim2SF x) = true -> sf_sign_set (Prim2SF y) = true ->
  sf_sign_set (Prim2SF (x + y)) = true.
Proof.
  rewrite add_spec. unfold SF64add, SFadd.
  destruct (Prim2SF x) as [[]|[]| |[] mx ex], (Prim2SF y) as [[]|[]| |[] my ey];
    cbn [sf_sign_set]; intros Hx Hy; try reflexivity; try discriminate.
  cbn [cond_Zopp Z.opp Z.add]. unfold binary_normalize.
  match goal with
  | |- context [binary_round prec emax true ?m ?e] =>
      pose proof (binary_round_sign true m e) as Hs;
      destruct (binary_round prec emax true m e)
  end; cbn [sf_sign_set]; auto.
Qed.

Lemma div_sign_set (x d : float) :
  sf_sign_set (Prim2SF x) = true -> (0 <? d) = true ->
  sf_sign_set (Prim2SF (x / d)) = true.
Proof.
  rewrite div_spec, FloatAxioms.ltb_spec. unfold SF64div, SFdiv, SFltb.
  change (Prim2SF 0) with (S754_zero false).
  destruct (Prim2SF x) as [[]|[]| |[] mx ex], (Prim2SF d) as [[]|[]| |[] md ed];
    cbn [sf_sign_set SFcompare xorb]; intros Hx Hd; try reflexivity; try discriminate.
  destruct (SFdiv_core_binary prec emax (Z.pos mx) ex (Z.pos md) ed) as [[mz ez] lz].
  pose proof (binary_round_aux_sign true mz ez lz) as Hs.
  destruct (binary_round_aux prec emax true mz ez lz); cbn [sf_sign_set]; auto.
Qed.

Lemma digits2_pos_lower (m : positive) :
  (2 ^ (Z.pos (digits2_pos m) - 1) <= Z.pos m)%Z.
Proof.
  induction m as [m IH | m IH |]; simpl digits2_pos;
    rewrite ?Pos2Z.inj_succ; [| | simpl; lia].
  - replace (Z.succ (Z.pos (digits2_pos m)) - 1)%Z with (Z.succ (Z.pos (digits2_pos m) - 1))%Z by lia.
    rewrite Z.pow_succ_r by lia. lia.
  - replace (Z.succ (Z.pos (digits2_pos m)) - 1)%Z with (Z.succ (Z.pos (digits2_pos m) - 1))%Z by lia.
    rewrite Z.pow_succ_r by lia. lia.
Qed.

Lemma iter_xO_lower (m d : positive) : (2 * Z.pos m <= Z.pos (Pos.iter xO m d))%Z.
Proof.
  induction d as [|d IH] using Pos.peano_ind.
  - simpl. lia.
  - rewrite Pos.iter_succ. lia.
Qed.

Lemma sub_one_not_positive (e : float) :
  (1 <=? e) = true -> sf_not_positive (Prim2SF (1 - e)) = true.
Proof.
  rewrite FloatAxioms.leb_spec, sub_spec. unfold SFleb.
  pose proof (Prim2SF_valid e) as Hv.
  change (Prim2SF 1) with (S754_finite false 4503599627370496 (-52)).
  destruct (Prim2SF e) as [[]|[]| |[] m ee]; try discriminate; try reflexivity.
  unfold SFcompare. intros Hc.
  unfold SF64sub, SFsub.
  assert (Hmin : Z.min (-52) ee = (-52)%Z).
  { destruct (-52 ?= ee)%Z eqn:E; try discriminate Hc.
    - apply Z.compare_eq in E. subst. reflexivity.
    - rewrite Z.compare_lt_iff in E. lia. }
  rewrite Hmin.
  assert (Hle : (Z.pos 4503599627370496 <= Z.pos (fst (shl_align m ee (-52))))%Z).
  { unfold shl_align. destruct (-52 ?= ee)%Z eqn:E; try discriminate Hc.
    - apply Z.compare_eq in E. subst ee. simpl.
      destruct (Pos.compare_cont Eq 4503599627370496 m) eqn:Ec; try discriminate Hc.
      + apply Pos.compare_eq in Ec. subst. lia.
      + change (Pos.compare_cont Eq 4503599627370496 m) with (4503599627370496 ?= m)%positive in Ec.
        rewrite Pos.compare_lt_iff in Ec. lia.
    - rewrite Z.compare_lt_iff in E.
      destruct (-52 - ee)%Z as [|q|q] eqn:Eq; try lia.
      simpl fst.
      pose proof (iter_xO_lower m q) as Hi.
      pose proof (digits2_pos_lower m) as Hd.
      simpl in Hv. unfold bounded, canonical_mantissa, fexp in Hv.
      apply andb_prop in Hv as [Hv _]. apply Z.eqb_eq in Hv.
      unfold emin, prec, emax in Hv.
      assert (Z.pos (digits2_pos m) = 53)%Z by lia.
      rewrite H in Hd. change (2 ^ (53 - 1))%Z with 4503599627370496%Z in Hd. lia. }
  change (shl_align 4503599627370496 (-52) (-52)) with (4503599627370496%positive, (-52)%Z).
  cbn [fst cond_Zopp].
  destruct (Z.pos 4503599627370496 - Z.pos (fst (shl_align m ee (-52))))%Z as [|q|q] eqn:Ed;
    try lia; [reflexivity|].
  unfold binary_normalize.
  pose proof (binary_round_sign true q (-52)) as Hs.
  destruct (binary_round prec emax true q (-52)); try reflexivity; subst; reflexivity.
Qed.

End FloatFacts.

(** ** Facts on the numpy operations *)

Section ArrayFacts.
Context {L : Libm} {RS : RandomState}.

Lemma uniform_length (n : nat) (g : rng) : length (fst (uniform n g)) = n.
Proof.
  revert g; induction n as [|n IH]; intros g; simpl; [reflexivity|].
  destruct (random_sample g) as [u g1]. specialize (IH g1).
  destruct (uniform n g1) as [us g2]. simpl in *. now rewrite IH.
Qed.

Lemma uniform_range (n : nat) (g : rng) :
  Forall (fun u => (0 <=? u)%float = true) (fst (uniform n g)).
Proof.
  revert g; induction n as [|n IH]; intros g; simpl; [constructor|].
  pose proof (random_sample_range g) as [H0 _].
  destruct (random_sample g) as [u g1]. specialize (IH g1).
  destruct (uniform n g1) as [us g2]. simpl in *. now constructor.
Qed.

Lemma randint_length (pop size : nat) (g : rng) :
  length (fst (randint pop size g)) = size.
Proof.
  revert g; induction size as [|n IH]; intros g; simpl; [reflexivity|].
  destruct (random_below pop g) as [i g1]. specialize (IH g1).
  destruct (randint pop n g1) as [idx g2]. simpl in *. now rewrite IH.
Qed.

Lemma randint_range (pop size : nat) (g : rng) :
  (0 < pop)%nat -> Forall (fun i => (i < pop)%nat) (fst (randint pop size g)).
Proof.
  intros Hpop. revert g; induction size as [|n IH]; intros g; simpl; [constructor|].
  pose proof (random_below_range pop g Hpop) as Hi.
  destruct (random_below pop g) as [i g1]. specialize (IH g1).
  destruct (randint pop n g1) as [idx g2]. simpl in *. now constructor.
Qed.

Lemma choice_ok (a : list float) (size : Z) (g g' : rng) (out : list float) :
  choice a size g = (Ok out, g') ->
  Z.of_nat (length out) = size /\ incl out a.
Proof.
  unfold choice. destruct (size <? 0)%Z eqn:Hneg; [discriminate|].
  apply Z.ltb_ge in Hneg.
  assert (Hdraw : forall g0, (0 < length a)%nat \/ Z.to_nat size = O ->
            (let (idx, g1) := randint (length a) (Z.to_nat size) g0 in
             (Ok (map (fun i => nth i a 0%float) idx), g1)) = (Ok out, g') ->
            Z.of_nat (length out) = size /\ incl out a).
  { intros g0 Hpop.
    pose proof (randint_length (length a) (Z.to_nat size) g0) as Hlen.
    destruct Hpop as [Hpop | Hzero].
    - pose proof (randint_range (length a) (Z.to_nat size) g0 Hpop) as Hrng.
      destruct (randint (length a) (Z.to_nat size) g0) as [idx g1]. simpl in *.
      intros [= <- <-]. rewrite length_map, Hlen. split; [lia|].
      intros x Hx. apply in_map_iff in Hx as (i & <- & Hi).
      apply nth_In. rewrite Forall_forall in Hrng. now apply Hrng.
    - destruct (randint (length a) (Z.to_nat size) g0) as [idx g1]. simpl in *.
      intros [= <- <-]. rewrite length_map, Hlen. split; [lia|].
      rewrite Hzero in Hlen. destruct idx; [|discriminate]. intros x []. }
  destruct a as [|x a'].
  - destruct (Z.to_nat size) as [|m] eqn:Hs; [|discriminate].
    intros H. apply (Hdraw g); [right; reflexivity | exact H].
  - intros H. apply (Hdraw g); [left; simpl; lia|].
    destruct (Z.to_nat size); exact H.
Qed.

Lemma fits_cases (m n : nat) : fits m n = true -> m = n \/ m = 1%nat.
Proof.
  unfold fits. intros H. apply orb_prop in H as [H | H]; apply Nat.eqb_eq in H; auto.
Qed.

Lemma broadcast_ok {A : Type} (f : float -> float -> A) (P : A -> Prop)
  (a b : list float) :
  length a = length b \/ length a = 1%nat \/ length b = 1%nat ->
  (forall x y, In x a -> In y b -> P (f x y)) ->
  exists c, broadcast f a b = Ok c /\ Forall P c /\
            length c = if (length a =? 1)%nat then length b else length a.
Proof.
  intros Hshape HP. unfold broadcast.
  destruct (length a =? length b)%nat eqn:E.
  - apply Nat.eqb_eq in E. eexists. split; [reflexivity|]. split.
    + apply Forall_forall. intros c Hc. apply in_map_iff in Hc as ([x y] & <- & Hxy).
      apply HP; [apply (in_combine_l _ _ _ _ Hxy) | apply (in_combine_r _ _ _ _ Hxy)].
    + rewrite length_map, length_combine, <- E, Nat.min_id.
      now destruct (length a =? 1)%nat.
  - apply Nat.eqb_neq in E.
    destruct Hshape as [H | [H | H]]; [contradiction | |].
    + destruct a as [|x [|x' a]]; try discriminate H.
      eexists. split; [reflexivity|]. split.
      * apply Forall_forall. intros c Hc. apply in_map_iff in Hc as (y & <- & Hy).
        apply HP; [now left | exact Hy].
      * now rewrite length_map.
    + destruct b as [|y [|y' b]]; try discriminate H.
      assert (Ha : (length a =? 1)%nat = false) by (apply Nat.eqb_neq; exact E).
      rewrite Ha.
      assert (Hc : forall c, In c (map (fun x => f x y) a) -> P c).
      { intros c Hc. apply in_map_iff in Hc as (x & <- & Hx).
        apply HP; [exact Hx | now left]. }
      destruct a as [|x [|x' a]].
      * exists []. repeat split. constructor.
      * simpl in E. contradiction.
      * eexists. split; [reflexivity|]. split;
          [apply Forall_forall; exact Hc | now rewrite length_map].
Qed.

Lemma select_incl (a : list float) (mask : list bool) : incl (select a mask) a.
Proof.
  revert mask; induction a as [|x a IH]; intros [|b mask]; simpl;
    try (intros y []).
  destruct b.
  - intros y [<- | Hy]; [now left | right; now apply (IH mask)].
  - intros y Hy. right. now apply (IH mask).
Qed.

Lemma select_all_false (a : list float) (mask : list bool) :
  Forall (fun b => b = false) mask -> select a mask = [].
Proof.
  revert mask; induction a as [|x a IH]; intros [|b mask] H; simpl; try reflexivity.
  inversion H; subst. now apply IH.
Qed.

End ArrayFacts.

(** ** Facts on the loop and on the final draw *)

Section LoopFacts.
Context {L : Libm} {RS : RandomState}.

Lemma bind_ok {A B : Type} (m : M A) (k : A -> M B) (g g' : rng) (b : B) :
  bind m k g = (Ok b, g') ->
  exists a g1, m g = (Ok a, g1) /\ k a g1 = (Ok b, g').
Proof.
  unfold bind. destruct (m g) as [[a | e |] g1]; try discriminate.
  intros H. now exists a, g1.
Qed.

Lemma lift_ok {A : Type} (o : outcome A) (g g' : rng) (a : A) :
  lift o g = (Ok a, g') -> o = Ok a /\ g' = g.
Proof. unfold lift. now intros [= -> ->]. Qed.

Lemma round_ok (rate : pyval) (times arr arr' : list float) (g g' : rng) :
  round rate times arr g = (Ok arr', g') ->
  exists avg_prob mask,
    average_probability rate times = Ok avg_prob /\
    broadcast PrimFloat.ltb (fst (uniform (length times) g)) avg_prob = Ok mask /\
    length times = length mask /\
    arr' = arr ++ select times mask /\
    g' = snd (uniform (length times) g).
Proof.
  unfold round. intros H.
  apply bind_ok in H as (avg_prob & g1 & H1 & H).
  apply lift_ok in H1 as [H1 ->].
  apply bind_ok in H as (us & g2 & H2 & H).
  apply bind_ok in H as (mask & g3 & H3 & H).
  apply lift_ok in H3 as [H3 ->].
  apply bind_ok in H as (accepted & g4 & H4 & H).
  apply lift_ok in H4 as [H4 ->].
  unfold ret in H. injection H as <- <-.
  destruct (uniform (length times) g) as [us' g2'] eqn:Hu.
  injection H2 as <- <-.
  unfold boolean_index in H4.
  destruct (length times =? length mask)%nat eqn:Hlen; [|discriminate].
  injection H4 as <-. apply Nat.eqb_eq in Hlen.
  exists avg_prob, mask. simpl. repeat split; assumption || reflexivity.
Qed.

Lemma accumulate_ok (fuel : nat) (rate : pyval) (times : list float) (n : Z)
  (arr out : list float) (g g' : rng) :
  accumulate fuel rate times n arr g = (Ok out, g') ->
  incl arr times ->
  incl out times /\ (n <= Z.of_nat (length out))%Z.
Proof.
  revert arr g. induction fuel as [|fuel IH]; intros arr g; simpl;
    destruct (Z.of_nat (length arr) <? n)%Z eqn:Hlt;
    try (unfold ret; intros [= <- <-] Hin; split; [exact Hin | now apply Z.ltb_ge]).
  - discriminate.
  - intros H Hin. apply bind_ok in H as (arr1 & g1 & Hr & H).
    apply (IH _ _ H).
    apply round_ok in Hr as (avg_prob & mask & _ & _ & _ & -> & _).
    apply incl_app; [exact Hin | apply select_incl].
Qed.

Lemma np_sort_perm (a : list float) : Permutation a (np_sort a).
Proof. apply NpSort.Permuted_sort. Qed.

Lemma np_sort_sorted (a : list float) :
  Sorted (fun x y => np_le x y = true) (np_sort a).
Proof. apply NpSort.Sorted_sort. Qed.

Lemma Sorted_adjacent (R : float -> float -> Prop) (l : list float) (d : float) :
  Sorted R l -> forall i, (S i < length l)%nat -> R (nth i l d) (nth (S i) l d).
Proof.
  induction 1 as [|x l Hs IH Hhd]; intros i Hi; simpl in Hi; [lia|].
  destruct i as [|i].
  - destruct Hhd as [|y l' Hxy]; [simpl in Hi; lia | exact Hxy].
  - apply IH. simpl. lia.
Qed.

(** What a successful call of the undecorated function returns. *)
Lemma func_ok (fuel : nat) (rate times total_pulses : pyval) (same_shape : bool)
  (g g' : rng) (out : list float) :
  from_inhomogeneous_poisson_process_func fuel rate times total_pulses same_shape g
    = (Ok out, g') ->
  exists ts n pool,
    times = PyNdarray ts /\
    (total_pulses = PyInt n \/ exists b, total_pulses = PyBool b /\ n = Z.b2z b) /\
    incl pool ts /\
    Z.of_nat (length out) = n /\
    incl out pool /\
    Sorted (fun x y => np_le x y = true) out.
Proof.
  unfold from_inhomogeneous_poisson_process_func.
  destruct times as [ts| | | | |]; try (destruct total_pulses; discriminate).
  set (n := match total_pulses with
            | PyInt n => n | PyBool b => Z.b2z b | _ => 0%Z end).
  intros H.
  assert (Hn : total_pulses = PyInt n \/ exists b, total_pulses = PyBool b /\ n = Z.b2z b).
  { destruct total_pulses; try discriminate; [left; reflexivity | right; eauto]. }
  assert (H' : (rate' <- lift (prepare_rate rate ts same_shape) ;;
                arrival_times <- accumulate fuel rate' ts n [] ;;
                arrival_times0 <- choice arrival_times n ;;
                ret (np_sort arrival_times0)) g = (Ok out, g')).
  { destruct total_pulses; try discriminate; exact H. }
  clear H. rename H' into H.
  apply bind_ok in H as (rate' & g1 & H1 & H).
  apply bind_ok in H as (pool & g2 & H2 & H).
  apply bind_ok in H as (drawn & g3 & H3 & H).
  unfold ret in H. injection H as <- <-.
  apply accumulate_ok in H2 as [Hpool _]; [| intros x []].
  apply choice_ok in H3 as [Hlen Hincl].
  pose proof (np_sort_perm drawn) as Hperm.
  exists ts, n, pool. repeat split; try assumption.
  - rewrite <- (Permutation_length Hperm). exact Hlen.
  - intros x Hx. apply Hincl. apply (Permutation_in x (Permutation_sym Hperm) Hx).
  - apply np_sort_sorted.
Qed.

Lemma check_types_wrapper_ok {A : Type} (args : list pyval) (func : M A)
  (g g' : rng) (a : A) :
  check_types_wrapper args func g = (Ok a, g') -> func g = (Ok a, g').
Proof.
  unfold check_types_wrapper, raise.
  repeat match goal with
         | |- context [match ?x with _ => _ end] => destruct x; try discriminate
         end.
  exact (fun H => H).
Qed.

Lemma np_le_leb (x y : float) :
  np_le x y = true -> is_nan y = false -> (x <=? y)%float = true.
Proof. unfold np_le. intros H Hy. rewrite Hy, orb_false_r in H. exact H. Qed.

End LoopFacts.

(** ** Facts on the argument checks *)

Section Validation.
Context {L : Libm} {RS : RandomState}.

Lemma check_types_wrapper_pass {A : Type} (a0 a1 a2 : pyval) (rest : list pyval)
  (func : M A) (g : rng) :
  accepted_rate a0 = true -> isinstance_ndarray a1 = true -> isinstance_int a2 = true ->
  check_types_wrapper (a0 :: a1 :: a2 :: rest) func g = func g.
Proof.
  intros H0 H1 H2. unfold check_types_wrapper. simpl.
  rewrite H1, H2. simpl.
  destruct a0 as [r| | | | |]; try discriminate H0; simpl in *; [|reflexivity].
  apply negb_true_iff in H0. now rewrite H0.
Qed.

End Validation.

(** ** Facts on the rate alignment *)

Lemma rows_length (n k : nat) (a : list float) : length (rows n k a) = n.
Proof. revert a; induction n as [|n IH]; intros a; simpl; [reflexivity | now rewrite IH]. Qed.

Lemma nth_rows (n k i : nat) (a : list float) :
  (i < n)%nat -> nth i (rows n k a) [] = firstn k (skipn (i * k) a).
Proof.
  revert i a; induction n as [|n IH]; intros i a Hi; [lia|].
  destruct i as [|i]; simpl; [reflexivity|].
  rewrite IH by lia. now rewrite skipn_skipn, (Nat.add_comm (i * k) k).
Qed.

Lemma rows_zero_width (n : nat) (a : list float) : rows n 0 a = repeat [] n.
Proof. revert a; induction n as [|n IH]; intros a; simpl; [reflexivity | now rewrite IH]. Qed.

Lemma block_of_truncated (n k i : nat) (a : list float) :
  (i < n)%nat ->
  firstn k (skipn (i * k) (firstn (n * k) a)) = firstn k (skipn (i * k) a).
Proof.
  intros Hi. rewrite skipn_firstn_comm, firstn_firstn.
  f_equal. nia.
Qed.

Lemma align_rate_eq (rate times : list float) :
  times <> [] ->
  align_rate rate times =
  Ok (map np_sum (rows (length times) (length rate / length times)
                   (firstn (length times * (length rate / length times)) rate))).
Proof.
  intros Hne. unfold align_rate, reshape.
  destruct times as [|t ts]; [contradiction|].
  set (n := length (t :: ts)). assert (Hn : (0 < n)%nat) by (subst n; simpl; lia).
  replace (n =? 0)%nat with false by (symmetry; apply Nat.eqb_neq; lia).
  assert (Hlen : length (firstn (n * (length rate / n)) rate) = (n * (length rate / n))%nat).
  { rewrite length_firstn. apply Nat.min_l. apply Nat.Div0.mul_div_le. }
  rewrite Hlen, Nat.eqb_refl. reflexivity.
Qed.

(** ** Steps that are never accepted *)

Section NeverAccepted.
Context {L : Libm} {RS : RandomState}.
Open Scope float_scope.

Lemma thinning_zero (delta a : float) :
  is_zero a = true ->
  thinning delta a = 0 \/ (thinning delta a = nan /\ is_finite delta = false).
Proof.
  intros Ha. unfold thinning.
  destruct (mul_zero_l (- a) delta (opp_zero a Ha)) as [Hz | [Hn Hd]].
  - left. rewrite (exp_zero _ Hz). reflexivity.
  - right. split; [|exact Hd]. rewrite (exp_nan _ Hn). reflexivity.
Qed.

Lemma thinning_sign_set (delta a : float) :
  sf_sign_set (Prim2SF a) = true -> (0 <? delta) = true ->
  sf_not_positive (Prim2SF (thinning delta a)) = true.
Proof.
  intros Ha Hd. unfold thinning.
  destruct (sign_clear_cases _ (mul_sign_clear _ _ (opp_sign _ Ha) Hd)) as [Hn | Hp].
  - rewrite (exp_nan _ Hn). reflexivity.
  - apply sub_one_not_positive, exp_ge_one, Hp.
Qed.

Lemma zero_or_nan_not_positive (p : float) :
  p = 0 \/ p = nan -> sf_not_positive (Prim2SF p) = true.
Proof. intros [-> | ->]; reflexivity. Qed.

(** A round whose probabilities are all non-positive accepts nothing. *)
Lemma round_no_accept (rate : pyval) (times arr : list float) (g : rng)
  (avg_prob : list float) :
  average_probability rate times = Ok avg_prob ->
  fits (length avg_prob) (length times) = true ->
  Forall (fun p => sf_not_positive (Prim2SF p) = true) avg_prob ->
  round rate times arr g = (Ok arr, snd (uniform (length times) g)).
Proof.
  intros Hp Hlen Hall. unfold round, bind, lift, ret. rewrite Hp.
  pose proof (uniform_length (length times) g) as Hul.
  pose proof (uniform_range (length times) g) as Hur.
  destruct (uniform (length times) g) as [us g1]. simpl in Hul, Hur |- *.
  apply fits_cases in Hlen.
  destruct (broadcast_ok PrimFloat.ltb (fun b => b = false) us avg_prob)
    as (mask & Hb & Hmask & Hml).
  { rewrite Hul. destruct Hlen as [-> | ->]; auto. }
  { intros u p Hu Hin. rewrite Forall_forall in Hur, Hall.
    apply ltb_not_positive; [now apply Hur | now apply Hall]. }
  rewrite Hb. unfold boolean_index.
  assert (Hml' : length mask = length times).
  { rewrite Hml, Hul. destruct (length times =? 1)%nat eqn:E; [|reflexivity].
    apply Nat.eqb_eq in E. destruct Hlen as [-> | ->]; auto. }
  rewrite Hml', Nat.eqb_refl, (select_all_false times mask Hmask), app_nil_r.
  reflexivity.
Qed.

(** When no round accepts anything the loop is still running after any
    number of rounds. *)
Lemma accumulate_stuck (fuel : nat) (rate : pyval) (times arr : list float) (n : Z) :
  (forall g, round rate times arr g = (Ok arr, snd (uniform (length times) g))) ->
  (Z.of_nat (length arr) < n)%Z ->
  forall g, fst (accumulate fuel rate times n arr g) = OutOfFuel.
Proof.
  intros Hround Hlt. apply Z.ltb_lt in Hlt.
  induction fuel as [|fuel IH]; intros g; simpl; rewrite Hlt; [reflexivity|].
  unfold bind. rewrite Hround. apply IH.
Qed.

Lemma bind_out_of_fuel {A B : Type} (m : M A) (k : A -> M B) (g : rng) :
  fst (m g) = OutOfFuel -> fst (bind m k g) = OutOfFuel.
Proof.
  unfold bind. destruct (m g) as [[a | e |] g1]; simpl; try discriminate. reflexivity.
Qed.

(** The decorated function on a prepared rate whose rounds accept nothing. *)
Lemma stuck_call (fuel : nat) (rate rate' : pyval) (times : list float) (n : Z)
  (same_shape : bool) (g : rng) :
  accepted_rate rate = true ->
  prepare_rate rate times same_shape = Ok rate' ->
  (forall g1, round rate' times [] g1 = (Ok [], snd (uniform (length times) g1))) ->
  (1 <= n)%Z ->
  fst (from_inhomogeneous_poisson_process fuel rate (PyNdarray times) (PyInt n)
         same_shape g) = OutOfFuel.
Proof.
  intros Hacc Hprep Hround Hn.
  unfold from_inhomogeneous_poisson_process.
  rewrite check_types_wrapper_pass by (assumption || reflexivity).
  unfold from_inhomogeneous_poisson_process_func.
  unfold bind at 1. unfold lift. rewrite Hprep.
  apply bind_out_of_fuel. apply accumulate_stuck; [exact Hround | simpl; lia].
Qed.

End NeverAccepted.

(** ** Zero rates *)

Section ZeroRate.
Context {L : Libm} {RS : RandomState}.
Open Scope float_scope.

Lemma zero_not_negative (x : float) : is_zero x = true -> (x <? 0) = false.
Proof. intros H. destruct (float_eqb_zero x H) as [-> | ->]; reflexivity. Qed.

Lemma all_zero_not_negative (r : list float) : all_zero r = true -> any_negative r = false.
Proof.
  unfold all_zero, any_negative. induction r as [|x r IH]; simpl; [reflexivity|].
  intros H. apply andb_prop in H as [Hx Hr].
  now rewrite (zero_not_negative x Hx), (IH Hr).
Qed.

Lemma np_sum_zeros (row : list float) : all_zero row = true -> np_sum row = 0.
Proof.
  unfold np_sum, all_zero. generalize (eq_refl 0). generalize 0 at 1 3 as acc.
  induction row as [|x row IH]; simpl; intros acc Hacc H; [exact Hacc|].
  apply andb_prop in H as [Hx Hr]. apply IH; [|exact Hr].
  subst acc. destruct (float_eqb_zero x Hx) as [-> | ->]; reflexivity.
Qed.

Lemma all_zero_firstn (k : nat) (a : list float) :
  all_zero a = true -> all_zero (firstn k a) = true.
Proof.
  unfold all_zero. revert a; induction k as [|k IH]; intros [|x a]; simpl; auto.
  intros H. apply andb_prop in H as [Hx Ha]. now rewrite Hx, (IH a Ha).
Qed.

Lemma all_zero_skipn (k : nat) (a : list float) :
  all_zero a = true -> all_zero (skipn k a) = true.
Proof.
  unfold all_zero. revert a; induction k as [|k IH]; intros [|x a]; simpl; auto.
  intros H. apply andb_prop in H as [Hx Ha]. now apply IH.
Qed.

Lemma block_sums_zero (n k : nat) (a : list float) :
  all_zero a = true -> map np_sum (rows n k a) = repeat 0 n.
Proof.
  revert a; induction n as [|n IH]; intros a Ha; simpl; [reflexivity|].
  rewrite (np_sum_zeros _ (all_zero_firstn k a Ha)).
  now rewrite (IH _ (all_zero_skipn k a Ha)).
Qed.

Lemma all_zero_repeat (n : nat) : all_zero (repeat 0 n) = true.
Proof. induction n as [|n IH]; simpl; [reflexivity | exact IH]. Qed.

(** The array rate the loop works with when the given array is all zeros. *)
Lemma prepare_zero_array (r times : list float) (same_shape : bool) :
  all_zero r = true -> times <> [] ->
  (same_shape = true -> fits (length r) (length times) = true) ->
  exists r', prepare_rate (PyNdarray r) times same_shape = Ok (PyNdarray r') /\
             all_zero r' = true /\ fits (length r') (length times) = true.
Proof.
  intros Hz Hne Hshape. unfold prepare_rate. destruct same_shape; simpl.
  - exists r. repeat split; auto.
  - rewrite (align_rate_eq r times Hne). simpl.
    rewrite (block_sums_zero _ _ _ (all_zero_firstn _ r Hz)).
    eexists. split; [reflexivity|]. split; [apply all_zero_repeat |].
    unfold fits. now rewrite repeat_length, Nat.eqb_refl.
Qed.

Lemma zero_probabilities (delta : float) (avg_rate : list float) :
  all_zero avg_rate = true ->
  Forall (fun p => p = 0 \/ (p = nan /\ is_finite delta = false))
    (acceptance delta avg_rate).
Proof.
  unfold all_zero, acceptance. induction avg_rate as [|a r IH]; simpl; intros H;
    [constructor|].
  apply andb_prop in H as [Ha Hr]. constructor; [|now apply IH].
  apply (thinning_zero delta a Ha).
Qed.

Lemma average_rate_zero (rate : pyval) (times : list float) (delta : float) :
  uniformly_zero rate ->
  (forall r, rate = PyNdarray r -> fits (length r) (length times) = true) ->
  exists avg_rate, average_rate rate times delta = Ok avg_rate /\
                   all_zero avg_rate = true /\
                   fits (length avg_rate) (length times) = true.
Proof.
  destruct rate as [r|f| | | |]; simpl; try contradiction; intros Hz Hlen.
  - exists r. repeat split; auto.
  - destruct (Hz times) as [Hl1 Hz1].
    destruct (Hz (map (fun t => t + delta) times)) as [Hl2 Hz2].
    rewrite length_map in Hl2.
    apply fits_cases in Hl1, Hl2.
    unfold all_zero in Hz1, Hz2. rewrite forallb_forall in Hz1, Hz2.
    destruct (broadcast_ok PrimFloat.add (fun s => is_zero (s / 2) = true)
                (f times) (f (map (fun t => t + delta) times)))
      as (sums & Hb & Hsums & Hls).
    { destruct Hl1 as [-> | ->], Hl2 as [-> | ->]; auto. }
    { intros x y Hx Hy. apply half_zero, add_zero; [now apply Hz1 | now apply Hz2]. }
    rewrite Hb. simpl. eexists. split; [reflexivity|]. split.
    + unfold all_zero. rewrite forallb_forall. rewrite Forall_forall in Hsums.
      intros x Hx. apply in_map_iff in Hx as (s0 & <- & Hs0). now apply Hsums.
    + rewrite length_map, Hls. unfold fits.
      destruct (length (f times) =? 1)%nat eqn:E.
      * destruct Hl2 as [-> | ->]; [now rewrite Nat.eqb_refl | now rewrite orb_true_r].
      * destruct Hl1 as [-> | H1]; [now rewrite Nat.eqb_refl|].
        rewrite H1 in E. discriminate E.
Qed.

End ZeroRate.

(** ** Rounds on a uniformly zero rate *)

Section DegenerateRates.
Context {L : Libm} {RS : RandomState}.
Open Scope float_scope.

Lemma prepare_uniformly_zero (rate : pyval) (times : list float) (same_shape : bool) :
  uniformly_zero rate -> times <> [] ->
  rate_fits_times rate times same_shape = true ->
  exists rate', prepare_rate rate times same_shape = Ok rate' /\
                uniformly_zero rate' /\
                (forall r, rate' = PyNdarray r -> fits (length r) (length times) = true).
Proof.
  destruct rate as [r|f| | | |]; simpl; try contradiction; intros Hz Hne Hshape.
  - destruct (prepare_zero_array r times same_shape Hz Hne) as (r' & Hp & Hz' & Hl).
    + intros ->. exact Hshape.
    + exists (PyNdarray r'). split; [exact Hp|]. split; [exact Hz'|].
      now intros r0 [= <-].
  - exists (PyCallable f). split; [reflexivity|]. split; [exact Hz | discriminate].
Qed.

Lemma uniformly_zero_accepted (rate : pyval) : uniformly_zero rate -> accepted_rate rate = true.
Proof.
  destruct rate as [r|f| | | |]; simpl; try contradiction; [|reflexivity].
  intros Hz. now rewrite (all_zero_not_negative r Hz).
Qed.

(** The rounds of the loop on a prepared rate that is uniformly zero. *)
Lemma zero_rate_rounds (rate' : pyval) (times : list float) :
  uniformly_zero rate' ->
  (forall r, rate' = PyNdarray r -> fits (length r) (length times) = true) ->
  (2 <= length times)%nat ->
  exists delta avg_prob,
    time_step times = Ok delta /\
    average_probability rate' times = Ok avg_prob /\
    Forall (fun p => p = 0 \/ (p = nan /\ is_finite delta = false)) avg_prob /\
    (forall arr g, round rate' times arr g = (Ok arr, snd (uniform (length times) g))).
Proof.
  intros Hz' Hl' Hlen.
  destruct times as [|t0 [|t1 rest]]; try (simpl in Hlen; lia).
  set (times := t0 :: t1 :: rest) in *. set (delta := t1 - t0).
  destruct (average_rate_zero rate' times delta Hz' Hl') as (avg & Havg & Hzavg & Hlavg).
  assert (Hprob : average_probability rate' times = Ok (acceptance delta avg)).
  { unfold average_probability. simpl. fold delta. fold times. now rewrite Havg. }
  pose proof (zero_probabilities delta avg Hzavg) as Hall.
  exists delta, (acceptance delta avg).
  repeat split; try assumption; try reflexivity.
  intros arr g. apply (round_no_accept rate' times arr g (acceptance delta avg) Hprob).
  - unfold acceptance. now rewrite length_map.
  - eapply Forall_impl; [|exact Hall]. intros p [Hp | [Hp _]];
      apply zero_or_nan_not_positive; auto.
Qed.

End DegenerateRates.

(** ** Rounds read through the thinning formula *)

Section Thinning.
Context {L : Libm} {RS : RandomState}.
Open Scope float_scope.

Lemma average_probability_ok (rate : pyval) (times avg_prob : list float) :
  average_probability rate times = Ok avg_prob ->
  exists t0 t1 rest avg_rate,
    times = t0 :: t1 :: rest /\
    average_rate rate times (t1 - t0) = Ok avg_rate /\
    avg_prob = map (thinning (t1 - t0)) avg_rate.
Proof.
  unfold average_probability, time_step.
  destruct times as [|t0 [|t1 rest]]; simpl; try discriminate.
  destruct (average_rate rate (t0 :: t1 :: rest) (t1 - t0)) as [avg | e |] eqn:Havg;
    simpl; try discriminate.
  intros [= <-]. exists t0, t1, rest, avg. repeat split; assumption || reflexivity.
Qed.

Lemma average_rate_ok (rate : pyval) (times avg_rate : list float) (delta : float) :
  average_rate rate times delta = Ok avg_rate ->
  match rate with
  | PyNdarray r => avg_rate = r
  | PyCallable f =>
      exists sums,
        broadcast PrimFloat.add (f times) (f (map (fun t => t + delta) times)) = Ok sums /\
        avg_rate = map (fun s => s / 2) sums
  | _ => False
  end.
Proof.
  destruct rate as [r|f| | | |]; simpl; try discriminate.
  - now intros [= <-].
  - destruct (broadcast _ _ _) as [sums | e |]; simpl; try discriminate.
    intros [= <-]. now exists sums.
Qed.

(** A completed round, read back through the thinning formula. *)
Lemma round_thinning (rate : pyval) (times arr arr' : list float) (g g' : rng) :
  round rate times arr g = (Ok arr', g') ->
  exists t0 t1 rest avg_rate mask,
    times = t0 :: t1 :: rest /\
    average_rate rate times (t1 - t0) = Ok avg_rate /\
    match rate with
    | PyNdarray r => avg_rate = r
    | PyCallable f =>
        exists sums,
          broadcast PrimFloat.add (f times) (f (map (fun t => t + (t1 - t0)) times))
            = Ok sums /\
          avg_rate = map (fun s => s / 2) sums
    | _ => False
    end /\
    broadcast PrimFloat.ltb (fst (uniform (length times) g))
      (map (thinning (t1 - t0)) avg_rate) = Ok mask /\
    length mask = length times /\
    arr' = arr ++ select times mask /\
    g' = snd (uniform (length times) g).
Proof.
  intros H. apply round_ok in H as (avg_prob & mask & Hp & Hb & Hl & Harr & Hg).
  apply average_probability_ok in Hp as (t0 & t1 & rest & avg_rate & Ht & Havg & ->).
  exists t0, t1, rest, avg_rate, mask.
  repeat split; try assumption; [|now symmetry].
  now apply average_rate_ok in Havg.
Qed.

Lemma nth_mask (us ps : list float) (i : nat) :
  length us = length ps ->
  nth i (map (fun p => fst p <? snd p) (combine us ps)) false
  = (nth i us 0 <? nth i ps 0).
Proof.
  intros Hlen.
  change false with ((fun p : float * float => fst p <? snd p) (0, 0)).
  rewrite map_nth, combine_nth by exact Hlen. reflexivity.
Qed.

(** The rounds of the loop on a callable that is negative everywhere. *)
Lemma negative_callable_rounds (f : list float -> list float) (times : list float) :
  uniformly_negative f -> positive_step times = true ->
  forall arr g,
    round (PyCallable f) times arr g = (Ok arr, snd (uniform (length times) g)).
Proof.
  unfold positive_step. destruct times as [|t0 [|t1 rest]]; simpl; try discriminate.
  set (times := t0 :: t1 :: rest). set (delta := t1 - t0).
  intros Hneg Hpos arr g.
  destruct (Hneg times) as [Hl1 Hn1].
  destruct (Hneg (map (fun t => t + delta) times)) as [Hl2 Hn2].
  rewrite length_map in Hl2. apply fits_cases in Hl1, Hl2.
  rewrite forallb_forall in Hn1, Hn2.
  destruct (broadcast_ok PrimFloat.add (fun s => sf_sign_set (Prim2SF (s / 2)) = true)
              (f times) (f (map (fun t => t + delta) times)))
    as (sums & Hb & Hsums & Hls).
  { destruct Hl1 as [-> | ->], Hl2 as [-> | ->]; auto. }
  { intros x y Hx Hy. apply div_sign_set; [|reflexivity].
    apply add_sign_set; apply negative_sign_set; [now apply Hn1 | now apply Hn2]. }
  apply (round_no_accept (PyCallable f) times arr g
           (acceptance delta (map (fun s => s / 2) sums))).
  - unfold average_probability. change (time_step times) with (Ok delta).
    cbn [obind average_rate]. rewrite Hb. reflexivity.
  - unfold acceptance. rewrite !length_map, Hls. unfold fits.
    destruct (length (f times) =? 1)%nat eqn:E.
    + destruct Hl2 as [-> | ->]; [now rewrite Nat.eqb_refl | now rewrite orb_true_r].
    + destruct Hl1 as [-> | H1]; [now rewrite Nat.eqb_refl|].
      rewrite H1 in E. discriminate E.
  - unfold acceptance. apply Forall_forall. intros p Hp.
    apply in_map_iff in Hp as (a & <- & Ha). apply in_map_iff in Ha as (s0 & <- & Hs0).
    rewrite Forall_forall in Hsums.
    apply (thinning_sign_set delta (s0 / 2) (Hsums s0 Hs0) Hpos).
Qed.

End Thinning.

(** ** Rounds that are sure to accept a step *)

Section SureStep.
Context {L : Libm} {RS : RandomState}.
Open Scope float_scope.

Lemma SFltb_leb_trans (x y z : spec_float) :
  SFltb x y = true -> SFleb y z = true -> SFltb x z = true.
Proof.
  unfold SFltb, SFleb.
  destruct x as [[]|[]| |[] mx ex], y as [[]|[]| |[] my ey], z as [[]|[]| |[] mz ez];
    cbn [SFcompare]; try reflexivity; try discriminate;
    change (Pos.compare_cont Eq) with Pos.compare;
    destruct (Z.compare_spec ex ey); try discriminate;
    destruct (Z.compare_spec ey ez); try discriminate;
    destruct (Z.compare_spec ex ez); try reflexivity; try lia;
    destruct (Pos.compare_spec mx my); cbn [CompOpp]; try discriminate;
    destruct (Pos.compare_spec my mz); cbn [CompOpp]; try discriminate;
    destruct (Pos.compare_spec mx mz); cbn [CompOpp]; try reflexivity; lia.
Qed.

Lemma ltb_leb_trans (u v p : float) :
  (u <? v) = true -> (v <=? p) = true -> (u <? p) = true.
Proof.
  rewrite !FloatAxioms.ltb_spec, FloatAxioms.leb_spec. apply SFltb_leb_trans.
Qed.

Lemma uniform_below_one (n : nat) (g : rng) :
  Forall (fun u => (u <? 1) = true) (fst (uniform n g)).
Proof.
  revert g; induction n as [|n IH]; intros g; simpl; [constructor|].
  pose proof (random_sample_range g) as [_ H1].
  destruct (random_sample g) as [u g1]. specialize (IH g1).
  destruct (uniform n g1) as [us g2]. simpl in *. now constructor.
Qed.

Lemma in_combine_r_inv {A B : Type} (l : list A) (l' : list B) (y : B) :
  length l = length l' -> In y l' -> exists x, In (x, y) (combine l l').
Proof.
  revert l'; induction l as [|x l IH]; intros [|y' l'] Hlen Hy; simpl in *;
    try contradiction; try discriminate.
  destruct Hy as [-> | Hy]; [exists x; now left|].
  destruct (IH l' (eq_add_S _ _ Hlen) Hy) as (x0 & Hx0). exists x0. now right.
Qed.

Lemma select_length_pos (a : list float) (mask : list bool) :
  length a = length mask -> In true mask -> (0 < length (select a mask))%nat.
Proof.
  revert mask; induction a as [|x a IH]; intros [|b mask] Hlen Hin; simpl in *;
    try contradiction; try discriminate.
  destruct b; simpl; [lia|].
  destruct Hin as [Hin | Hin]; [discriminate|].
  apply (IH mask); [now injection Hlen | exact Hin].
Qed.

(** The mask of a round in which some probability is at least 1. *)
Lemma sure_mask (us avg_prob : list float) :
  us <> [] ->
  Forall (fun u => (u <? 1) = true) us ->
  fits (length avg_prob) (length us) = true ->
  existsb (fun p => 1 <=? p) avg_prob = true ->
  exists mask, broadcast PrimFloat.ltb us avg_prob = Ok mask /\
               length mask = length us /\ In true mask.
Proof.
  intros Hne Hus Hfit Hsure.
  apply existsb_exists in Hsure as (p & Hp & Hp1).
  rewrite Forall_forall in Hus.
  unfold broadcast. destruct (length us =? length avg_prob)%nat eqn:E.
  - apply Nat.eqb_eq in E. eexists. split; [reflexivity|]. split.
    + now rewrite length_map, length_combine, <- E, Nat.min_id.
    + destruct (in_combine_r_inv us avg_prob p E Hp) as (u & Hu).
      apply in_map_iff. exists (u, p). split; [|exact Hu]. simpl.
      apply (ltb_leb_trans u 1 p); [|exact Hp1].
      apply Hus, (in_combine_l _ _ _ _ Hu).
  - apply Nat.eqb_neq in E. apply fits_cases in Hfit as [Hfit | Hfit];
      [symmetry in Hfit; contradiction|].
    destruct avg_prob as [|q [|q' ps]]; try discriminate Hfit.
    destruct Hp as [-> | []].
    destruct us as [|u [|u' us]]; [contradiction | simpl in E; contradiction |].
    eexists. split; [reflexivity|]. split; [now rewrite length_map|].
    left. apply (ltb_leb_trans u 1 p); [apply Hus; now left | exact Hp1].
Qed.

(** Such a round completes and adds at least one candidate. *)
Lemma round_progress (rate : pyval) (times arr avg_prob : list float) (g : rng) :
  average_probability rate times = Ok avg_prob ->
  fits (length avg_prob) (length times) = true ->
  existsb (fun p => 1 <=? p) avg_prob = true ->
  exists arr',
    round rate times arr g = (Ok arr', snd (uniform (length times) g)) /\
    (length arr < length arr')%nat.
Proof.
  intros Hp Hfit Hsure.
  assert (Hne : times <> []).
  { apply average_probability_ok in Hp as (t0 & t1 & rest & _ & -> & _). discriminate. }
  unfold round, bind, lift, ret. rewrite Hp.
  pose proof (uniform_length (length times) g) as Hul.
  pose proof (uniform_below_one (length times) g) as Hus.
  destruct (uniform (length times) g) as [us g1]. simpl in Hul, Hus |- *.
  destruct (sure_mask us avg_prob) as (mask & Hb & Hml & Hin); try assumption.
  { intros ->. simpl in Hul. destruct times; [now apply Hne | discriminate]. }
  { now rewrite Hul. }
  rewrite Hb. unfold boolean_index. rewrite Hml, Hul, Nat.eqb_refl.
  eexists. split; [reflexivity|].
  rewrite length_app.
  pose proof (select_length_pos times mask) as Hpos.
  rewrite Hml, Hul in Hpos. specialize (Hpos eq_refl Hin). lia.
Qed.

(** The loop then exits within [total_pulses] rounds. *)
Lemma accumulate_returns (fuel : nat) (rate : pyval) (times avg_prob : list float)
  (n : Z) :
  average_probability rate times = Ok avg_prob ->
  fits (length avg_prob) (length times) = true ->
  existsb (fun p => 1 <=? p) avg_prob = true ->
  forall arr g,
    (Z.to_nat (n - Z.of_nat (length arr)) <= fuel)%nat ->
    exists out g',
      accumulate fuel rate times n arr g = (Ok out, g') /\
      (n <= Z.of_nat (length out))%Z.
Proof.
  intros Hp Hfit Hsure.
  induction fuel as [|fuel IH]; intros arr g Hfuel; simpl;
    destruct (Z.of_nat (length arr) <? n)%Z eqn:Hlt;
    try (apply Z.ltb_ge in Hlt; exists arr, g; split; [reflexivity | exact Hlt]).
  - apply Z.ltb_lt in Hlt. lia.
  - apply Z.ltb_lt in Hlt.
    destruct (round_progress rate times arr avg_prob g Hp Hfit Hsure) as (arr' & Hr & Hgrow).
    unfold bind. rewrite Hr. apply IH. lia.
Qed.

Lemma choice_returns (a : list float) (size : Z) (g : rng) :
  (0 <= size)%Z -> (size <= Z.of_nat (length a))%Z ->
  exists out g', choice a size g = (Ok out, g').
Proof.
  intros H0 Hle. unfold choice.
  replace (size <? 0)%Z with false by (symmetry; apply Z.ltb_ge; exact H0).
  destruct a as [|x a].
  - simpl in Hle. replace size with 0%Z by lia. simpl. eauto.
  - destruct (Z.to_nat size) as [|m];
      match goal with
      | |- context [randint ?k ?m ?g] => destruct (randint k m g) as [idx g1]
      end; eauto.
Qed.

(** With a sure step the decorated function returns, given as many rounds
    as pulses. *)
Lemma sure_step_returns (fuel : nat) (rate : pyval) (times : list float) (n : Z)
  (same_shape : bool) (g : rng) :
  sure_step rate times same_shape = true ->
  (0 <= n)%Z -> (Z.to_nat n <= fuel)%nat ->
  exists out g',
    from_inhomogeneous_poisson_process fuel rate (PyNdarray times) (PyInt n)
      same_shape g = (Ok out, g').
Proof.
  unfold sure_step. intros Hsure Hn Hfuel.
  apply andb_prop in Hsure as [Hacc Hsure].
  destruct (prepare_rate rate times same_shape) as [rate' | |] eqn:Hprep;
    try discriminate.
  destruct (average_probability rate' times) as [avg_prob | |] eqn:Hp;
    try discriminate.
  apply andb_prop in Hsure as [Hfit Hsure].
  unfold from_inhomogeneous_poisson_process.
  rewrite check_types_wrapper_pass by (assumption || reflexivity).
  unfold from_inhomogeneous_poisson_process_func.
  unfold bind at 1. unfold lift. rewrite Hprep.
  destruct (accumulate_returns fuel rate' times avg_prob n Hp Hfit Hsure [] g)
    as (pool & g1 & Hacc' & Hpool); [simpl; lia|].
  unfold bind at 1. rewrite Hacc'.
  destruct (choice_returns pool n g1 Hn Hpool) as (drawn & g2 & Hc).
  unfold bind. rewrite Hc. unfold ret. eauto.
Qed.

End SureStep.

(** ** The claims *)

Section Claims.
Context {L : Libm} {RS : RandomState}.

(** A call that passes the argument checks and whose rate can be prepared is
    the loop on the prepared rate, from no candidates, followed by the draw
    and the sort. *)
Lemma call_runs_loop (fuel : nat) (rate rate' : pyval) (times : list float)
  (total_pulses : Z) (same_shape : bool) (g : rng) :
  accepted_rate rate = true ->
  prepare_rate rate times same_shape = Ok rate' ->
  from_inhomogeneous_poisson_process fuel rate (PyNdarray times) (PyInt total_pulses)
    same_shape g
  = (arrival_times <- accumulate fuel rate' times total_pulses [] ;;
     arrival_times0 <- choice arrival_times total_pulses ;;
     ret (np_sort arrival_times0)) g.
Proof.
  intros Hacc Hprep. unfold from_inhomogeneous_poisson_process.
  rewrite check_types_wrapper_pass by (assumption || reflexivity).
  unfold from_inhomogeneous_poisson_process_func.
  unfold bind at 1. unfold lift. rewrite Hprep. reflexivity.
Qed.

(** C1.  A sequence returned by [from_inhomogeneous_poisson_process] has
    length exactly [total_pulses]; and a sequence is returned, within
    [total_pulses] rounds of the loop, when some step is sure to be
    accepted. *)
Theorem returned_length (fuel : nat) (rate : pyval) (times : list float)
  (total_pulses : Z) (same_shape : bool) (g : rng) :
  (forall out g',
     from_inhomogeneous_poisson_process fuel rate (PyNdarray times)
       (PyInt total_pulses) same_shape g = (Ok out, g') ->
     Z.of_nat (length out) = total_pulses) /\
  (sure_step rate times same_shape = true ->
   (0 < total_pulses)%Z -> (Z.to_nat total_pulses <= fuel)%nat ->
   exists out g',
     from_inhomogeneous_poisson_process fuel rate (PyNdarray times)
       (PyInt total_pulses) same_shape g = (Ok out, g') /\
     Z.of_nat (length out) = total_pulses).
Proof.
  assert (Hlen : forall out g',
            from_inhomogeneous_poisson_process fuel rate (PyNdarray times)
              (PyInt total_pulses) same_shape g = (Ok out, g') ->
            Z.of_nat (length out) = total_pulses).
  { intros out g' H. apply check_types_wrapper_ok in H.
    apply func_ok in H as (ts & n & pool & _ & Hn & _ & Hlen & _).
    destruct Hn as [[= ->] | (b & Hb & _)]; [exact Hlen | discriminate Hb]. }
  split; [exact Hlen|].
  intros Hsure Hn Hfuel.
  destruct (sure_step_returns fuel rate times total_pulses same_shape g Hsure)
    as (out & g' & Hrun); [lia | exact Hfuel |].
  exists out, g'. split; [exact Hrun | exact (Hlen out g' Hrun)].
Qed.

(** C2.  With [same_shape] false an array rate is replaced by the sums of
    [len(times)] contiguous blocks of [block_size = len(rate) // len(times)]
    elements, the elements past [len(times) * block_size] being dropped; for
    twenty ones over ten time samples every block sums to 2.  The rounds of
    [from_inhomogeneous_poisson_process] run on these sums. *)
Theorem rate_alignment (rate times : list float) :
  times <> [] ->
  exists aligned,
    prepare_rate (PyNdarray rate) times false = Ok (PyNdarray aligned) /\
    aligned = map np_sum (rows (length times) (length rate / length times)
                            (firstn (length times * (length rate / length times)) rate)) /\
    length aligned = length times /\
    (forall i, (i < length times)%nat ->
       nth i aligned 0%float =
       np_sum (firstn (length rate / length times)
                 (skipn (i * (length rate / length times)) rate))) /\
    (rate = repeat 1%float 20 -> length times = 10%nat -> aligned = repeat 2%float 10) /\
    (forall fuel total_pulses g,
       any_negative rate = false ->
       from_inhomogeneous_poisson_process fuel (PyNdarray rate) (PyNdarray times)
         (PyInt total_pulses) false g
       = (arrival_times <- accumulate fuel (PyNdarray aligned) times total_pulses [] ;;
          arrival_times0 <- choice arrival_times total_pulses ;;
          ret (np_sort arrival_times0)) g).
Proof.
  intros Hne.
  assert (Hprep : prepare_rate (PyNdarray rate) times false
                  = Ok (PyNdarray
                          (map np_sum
                             (rows (length times) (length rate / length times)
                                (firstn (length times * (length rate / length times))
                                   rate))))).
  { unfold prepare_rate. simpl. rewrite (align_rate_eq rate times Hne). reflexivity. }
  eexists. split; [exact Hprep | split; [reflexivity|]].
  set (n := length times). set (k := (length rate / n)%nat).
  split; [now rewrite length_map, rows_length|]. split; [|split].
  - intros i Hi.
    change 0%float with (np_sum []).
    rewrite map_nth, nth_rows by exact Hi.
    now rewrite block_of_truncated.
  - intros -> Hten. subst k n. rewrite Hten. reflexivity.
  - intros fuel total_pulses g Hneg.
    apply call_runs_loop; [simpl; now rewrite Hneg | exact Hprep].
Qed.

Local Open Scope float_scope.


Local Close Scope float_scope.

(** C4.  A rate array with a negative element makes
    [from_inhomogeneous_poisson_process] raise [ValueError] whatever the
    other arguments are, with the generator state as it was. *)
Theorem negative_rate_rejected (fuel : nat) (rate : list float)
  (times total_pulses : pyval) (same_shape : bool) (g : rng) :
  any_negative rate = true ->
  from_inhomogeneous_poisson_process fuel (PyNdarray rate) times total_pulses
    same_shape g = (Raise ValueError, g).
Proof.
  intros Hneg. unfold from_inhomogeneous_poisson_process, check_types_wrapper.
  simpl. rewrite Hneg. reflexivity.
Qed.

Local Open Scope float_scope.

(** C5.  For a uniformly zero rate (an all-zero array, fitting the time axis
    when used unaligned, or a callable returning zeros), a time axis
    with a step and [total_pulses >= 1]: every acceptance probability is
    zero (NaN when the step is not finite), no round adds a candidate, and
    the loop is still running after any number of rounds. *)
Theorem zero_rate_never_terminates (rate : pyval) (times : list float)
  (total_pulses : Z) (same_shape : bool) :
  uniformly_zero rate ->
  rate_fits_times rate times same_shape = true ->
  (2 <= length times)%nat ->
  (1 <= total_pulses)%Z ->
  exists rate' delta avg_prob,
    prepare_rate rate times same_shape = Ok rate' /\
    time_step times = Ok delta /\
    average_probability rate' times = Ok avg_prob /\
    Forall (fun p => p = 0 \/ (p = nan /\ is_finite delta = false)) avg_prob /\
    (forall arr g, round rate' times arr g = (Ok arr, snd (uniform (length times) g))) /\
    (forall fuel g,
       fst (from_inhomogeneous_poisson_process fuel rate (PyNdarray times)
              (PyInt total_pulses) same_shape g) = OutOfFuel).
Proof.
  intros Hz Hshape Hlen Hn.
  assert (Hne : times <> []) by (intros ->; simpl in Hlen; lia).
  destruct (prepare_uniformly_zero rate times same_shape Hz Hne Hshape)
    as (rate' & Hprep & Hz' & Hl').
  destruct (zero_rate_rounds rate' times Hz' Hl' Hlen)
    as (delta & avg_prob & Hstep & Hprob & Hall & Hround).
  exists rate', delta, avg_prob. repeat split; try assumption.
  intros fuel g. apply (stuck_call fuel rate rate' times total_pulses same_shape g);
    [now apply uniformly_zero_accepted | exact Hprep | intros g1; apply Hround | exact Hn].
Qed.

Local Close Scope float_scope.

(** C6.  For a time axis of real numbers (no NaN) a sequence returned by
    [from_inhomogeneous_poisson_process] is ascending,
    [output[i] <= output[i+1]] at every valid index; and an ascending
    sequence is returned, within [total_pulses] rounds of the loop, when
    some step is sure to be accepted. *)
Theorem returned_sorted (fuel : nat) (rate : pyval) (times : list float)
  (total_pulses : Z) (same_shape : bool) (g : rng) :
  forallb (fun t => negb (is_nan t)) times = true ->
  (forall out g',
     from_inhomogeneous_poisson_process fuel rate (PyNdarray times)
       (PyInt total_pulses) same_shape g = (Ok out, g') ->
     forall i, (S i < length out)%nat ->
       (nth i out 0 <=? nth (S i) out 0)%float = true) /\
  (sure_step rate times same_shape = true ->
   (0 < total_pulses)%Z -> (Z.to_nat total_pulses <= fuel)%nat ->
   exists out g',
     from_inhomogeneous_poisson_process fuel rate (PyNdarray times)
       (PyInt total_pulses) same_shape g = (Ok out, g') /\
     forall i, (S i < length out)%nat ->
       (nth i out 0 <=? nth (S i) out 0)%float = true).
Proof.
  intros Hreal.
  assert (Hsorted : forall out g',
            from_inhomogeneous_poisson_process fuel rate (PyNdarray times)
              (PyInt total_pulses) same_shape g = (Ok out, g') ->
            forall i, (S i < length out)%nat ->
              (nth i out 0 <=? nth (S i) out 0)%float = true).
  { intros out g' H i Hi. apply check_types_wrapper_ok in H.
    apply func_ok in H as (ts & n & pool & [= <-] & _ & Hpool & _ & Hout & Hsorted).
    apply np_le_leb.
    - apply (Sorted_adjacent _ out 0%float Hsorted i Hi).
    - rewrite forallb_forall in Hreal.
      apply negb_true_iff, Hreal, Hpool, Hout, nth_In. exact Hi. }
  split; [exact Hsorted|].
  intros Hsure Hn Hfuel.
  destruct (sure_step_returns fuel rate times total_pulses same_shape g Hsure)
    as (out & g' & Hrun); [lia | exact Hfuel |].
  exists out, g'. split; [exact Hrun | exact (Hsorted out g' Hrun)].
Qed.

(** C7.  On the array-rate path every value of a returned sequence is an
    element of [times]; and such a sequence is returned, within
    [total_pulses] rounds of the loop, when some step is sure to be
    accepted. *)
Theorem returned_members (fuel : nat) (rate times : list float)
  (total_pulses : Z) (same_shape : bool) (g : rng) :
  (forall out g',
     from_inhomogeneous_poisson_process fuel (PyNdarray rate) (PyNdarray times)
       (PyInt total_pulses) same_shape g = (Ok out, g') ->
     forall x, In x out -> In x times) /\
  (sure_step (PyNdarray rate) times same_shape = true ->
   (0 < total_pulses)%Z -> (Z.to_nat total_pulses <= fuel)%nat ->
   exists out g',
     from_inhomogeneous_poisson_process fuel (PyNdarray rate) (PyNdarray times)
       (PyInt total_pulses) same_shape g = (Ok out, g') /\
     forall x, In x out -> In x times).
Proof.
  assert (Hmem : forall out g',
            from_inhomogeneous_poisson_process fuel (PyNdarray rate) (PyNdarray times)
              (PyInt total_pulses) same_shape g = (Ok out, g') ->
            forall x, In x out -> In x times).
  { intros out g' H x Hx. apply check_types_wrapper_ok in H.
    apply func_ok in H as (ts & n & pool & [= <-] & _ & Hpool & _ & Hout & _).
    apply Hpool, Hout, Hx. }
  split; [exact Hmem|].
  intros Hsure Hn Hfuel.
  destruct (sure_step_returns fuel (PyNdarray rate) times total_pulses same_shape g Hsure)
    as (out & g' & Hrun); [lia | exact Hfuel |].
  exists out, g'. split; [exact Hrun | exact (Hmem out g' Hrun)].
Qed.

(** On four positional arguments [from_cox_process] never returns: the
    checks of [check_types_wrapper] run before the body, on the positions
    that hold [rate], [times] and [total_pulses] in the other two
    functions, and the body raises [NotImplementedError] when they pass;
    the generator state is untouched. *)
Lemma cox_process_checks_first (rate same_shape times mu : pyval) (g : rng) :
  exists e,
    from_cox_process rate same_shape times mu g = (Raise e, g) /\
    (e = NotImplementedError <->
     accepted_rate rate && isinstance_ndarray same_shape && isinstance_int times = true).
Proof.
  unfold from_cox_process, check_types_wrapper, from_cox_process_func, raise. simpl.
  destruct rate as [r| | | | |]; simpl;
    try (exists TypeError; split; [reflexivity | split; discriminate]).
  - destruct (any_negative r); simpl.
    + exists ValueError. split; [reflexivity | split; discriminate].
    + destruct (isinstance_ndarray same_shape); simpl;
        [| exists TypeError; split; [reflexivity | split; discriminate]].
      destruct (isinstance_int times); simpl;
        [| exists TypeError; split; [reflexivity | split; discriminate]].
      exists NotImplementedError. split; [reflexivity | split; reflexivity].
  - destruct (isinstance_ndarray same_shape); simpl;
      [| exists TypeError; split; [reflexivity | split; discriminate]].
    destruct (isinstance_int times); simpl;
      [| exists TypeError; split; [reflexivity | split; discriminate]].
    exists NotImplementedError. split; [reflexivity | split; reflexivity].
Qed.

(** The declared signature is [(rate, same_shape: bool, times, mu)], the
    checks are those of [(rate, times, total_pulses)]: no call that passes
    a [bool] for [same_shape] reaches the body.  It raises [TypeError]
    where [NotImplementedError] is meant, or the [ValueError] of a negative
    rate. *)
Lemma cox_process_declared_call_rejected (rate : pyval) (same_shape : bool)
  (times mu : pyval) (g : rng) :
  from_cox_process rate (PyBool same_shape) times mu g
  = (Raise (match rate with
            | PyNdarray r => if any_negative r then ValueError else TypeError
            | _ => TypeError
            end), g).
Proof.
  unfold from_cox_process, check_types_wrapper, raise. simpl.
  destruct rate as [r| | | | |]; simpl; try reflexivity.
  destruct (any_negative r); reflexivity.
Qed.

Local Open Scope float_scope.

(** C9.  An array rate shorter than [times] with [same_shape] false is not
    rejected: the block size is 0, the aligned rate is [len(times)] zeros,
    and for a time axis with a step and [total_pulses >= 1] the call is
    still running after any number of rounds. *)
Theorem short_rate_never_terminates (rate times : list float) (total_pulses : Z) :
  (length rate < length times)%nat ->
  any_negative rate = false ->
  (2 <= length times)%nat ->
  (1 <= total_pulses)%Z ->
  (length rate / length times = 0)%nat /\
  prepare_rate (PyNdarray rate) times false = Ok (PyNdarray (repeat 0 (length times))) /\
  (forall fuel g,
     fst (from_inhomogeneous_poisson_process fuel (PyNdarray rate) (PyNdarray times)
            (PyInt total_pulses) false g) = OutOfFuel).
Proof.
  intros Hshort Hneg Hlen Hn.
  assert (Hne : times <> []) by (intros ->; simpl in Hlen; lia).
  assert (Hk : (length rate / length times = 0)%nat) by (apply Nat.div_small; exact Hshort).
  assert (Hprep : prepare_rate (PyNdarray rate) times false
                  = Ok (PyNdarray (repeat 0 (length times)))).
  { unfold prepare_rate. simpl. rewrite (align_rate_eq rate times Hne), Hk. simpl.
    rewrite rows_zero_width, map_repeat. reflexivity. }
  split; [exact Hk|]. split; [exact Hprep|].
  intros fuel g.
  set (zeros := PyNdarray (repeat 0 (length times))).
  assert (Hz : uniformly_zero zeros) by apply all_zero_repeat.
  destruct (zero_rate_rounds zeros times Hz) as (delta & avg_prob & _ & _ & _ & Hround);
    [intros r [= <-]; unfold fits; now rewrite repeat_length, Nat.eqb_refl | exact Hlen |].
  apply (stuck_call fuel (PyNdarray rate) zeros times total_pulses false g);
    [simpl; now rewrite Hneg | exact Hprep | intros g1; apply Hround | exact Hn].
Qed.

(** C10.  A callable rate is let through by [check_types_wrapper] whatever
    values it returns, so the call is that of the undecorated function; in
    a round on a time axis with a positive step, a step whose averaged rate
    is negative has a non-positive acceptance probability and is not
    accepted; and with a callable that is negative everywhere the call is
    still running after any number of rounds, no exception raised. *)
Theorem callable_rate_not_validated (f : list float -> list float)
  (times : list float) (total_pulses : Z) (same_shape : bool) :
  (forall fuel g,
     from_inhomogeneous_poisson_process fuel (PyCallable f) (PyNdarray times)
       (PyInt total_pulses) same_shape g
     = from_inhomogeneous_poisson_process_func fuel (PyCallable f) (PyNdarray times)
         (PyInt total_pulses) same_shape g) /\
  (forall arr arr' g g',
     round (PyCallable f) times arr g = (Ok arr', g') ->
     exists delta avg_rate mask,
       time_step times = Ok delta /\
       average_rate (PyCallable f) times delta = Ok avg_rate /\
       length mask = length times /\
       arr' = arr ++ select times mask /\
       (length avg_rate = length times -> (0 <? delta) = true ->
        forall i, (nth i avg_rate 0 <? 0) = true ->
          sf_not_positive (Prim2SF (thinning delta (nth i avg_rate 0))) = true /\
          nth i mask false = false)) /\
  (uniformly_negative f -> positive_step times = true -> (1 <= total_pulses)%Z ->
   forall fuel g,
     fst (from_inhomogeneous_poisson_process fuel (PyCallable f) (PyNdarray times)
            (PyInt total_pulses) same_shape g) = OutOfFuel).
Proof.
  split; [|split].
  - intros fuel g. unfold from_inhomogeneous_poisson_process.
    now rewrite check_types_wrapper_pass.
  - intros arr arr' g g' H.
    apply round_thinning in H
      as (t0 & t1 & rest & avg_rate & mask & Ht & Havg & _ & Hb & Hl & Harr & _).
    exists (t1 - t0), avg_rate, mask. subst times.
    repeat split; try assumption; try reflexivity.
    + apply thinning_sign_set; [now apply negative_sign_set | assumption].
    + pose proof (uniform_length (length (t0 :: t1 :: rest)) g) as Hul.
      pose proof (uniform_range (length (t0 :: t1 :: rest)) g) as Hur.
      remember (fst (uniform (length (t0 :: t1 :: rest)) g)) as us eqn:Hus.
      assert (Hlen : length us = length (map (thinning (t1 - t0)) avg_rate))
        by (now rewrite length_map, Hul, H).
      unfold broadcast in Hb. rewrite Hlen, Nat.eqb_refl in Hb.
      injection Hb as <-. rewrite (nth_mask _ _ i Hlen).
      destruct (Nat.lt_ge_cases i (length avg_rate)) as [Hi | Hi].
      * apply ltb_not_positive.
        -- rewrite Forall_forall in Hur. apply Hur, nth_In. now rewrite Hul, <- H.
        -- rewrite (nth_indep _ 0 (thinning (t1 - t0) 0)) by (now rewrite length_map).
           rewrite map_nth.
           apply thinning_sign_set; [now apply negative_sign_set | assumption].
      * rewrite (nth_overflow avg_rate) in H1 by exact Hi. discriminate H1.
  - intros Hneg Hpos Hn fuel g.
    apply (stuck_call fuel (PyCallable f) (PyCallable f) times total_pulses same_shape g);
      [reflexivity | reflexivity | | exact Hn].
    intros g1. now apply negative_callable_rounds.
Qed.

Local Close Scope float_scope.

End Claims.

(** ** The claims at concrete inputs

    All runs below use the instances [libm_model] and [lcg], seeded with the
    state given as last argument. *)

(** C1 at a constant rate 5 over [ts10], five pulses, and at a constant rate
    40, whose steps are all sure, twelve pulses. *)
Lemma returned_length_witness :
  (from_inhomogeneous_poisson_process (L := libm_model) (RS := lcg) 5
     (PyNdarray (repeat 5%float 10)) (PyNdarray ts10) (PyInt 5) true 42%N
   = (Ok [1; 4; 7; 8; 9]%float, 14681447096454308151%N) /\
   Z.of_nat (length [1; 4; 7; 8; 9]%float) = 5%Z) /\
  (sure_step (L := libm_model) (PyNdarray (repeat 40%float 10)) ts10 true = true /\
   exists out g',
     from_inhomogeneous_poisson_process (L := libm_model) (RS := lcg) 12
       (PyNdarray (repeat 40%float 10)) (PyNdarray ts10) (PyInt 12) true 42%N
     = (Ok out, g') /\
     Z.of_nat (length out) = 12%Z).
Proof.
  assert (H : from_inhomogeneous_poisson_process (L := libm_model) (RS := lcg) 5
                (PyNdarray (repeat 5%float 10)) (PyNdarray ts10) (PyInt 5) true 42%N
              = (Ok [1; 4; 7; 8; 9]%float, 14681447096454308151%N))
    by (vm_compute; reflexivity).
  assert (Hsure : sure_step (L := libm_model) (PyNdarray (repeat 40%float 10)) ts10 true
                  = true) by (vm_compute; reflexivity).
  split; split.
  - exact H.
  - exact (proj1 (@returned_length libm_model lcg 5 _ _ _ _ _) _ _ H).
  - exact Hsure.
  - apply (proj2 (@returned_length libm_model lcg 12 _ _ _ _ _) Hsure); simpl; lia.
Defined.

(** C2 at twenty ones over the ten samples of [ts10]. *)
Lemma rate_alignment_witness :
  ts10 <> [] /\
  exists aligned,
    prepare_rate (PyNdarray (repeat 1%float 20)) ts10 false = Ok (PyNdarray aligned) /\
    aligned = repeat 2%float 10.
Proof.
  assert (Hne : ts10 <> []) by discriminate.
  split; [exact Hne |].
  destruct (@rate_alignment libm_model lcg (repeat 1%float 20) ts10 Hne)
    as (aligned & Hprep & _ & _ & _ & Hex & _).
  exists aligned. split; [exact Hprep | apply Hex; reflexivity].
Defined.


(** C4 at a rate array holding -2. *)
Lemma negative_rate_rejected_witness :
  any_negative [1; -2; 3]%float = true /\
  from_inhomogeneous_poisson_process (L := libm_model) (RS := lcg) 5
    (PyNdarray [1; -2; 3]%float) (PyNdarray ts10) (PyInt 5) true 42%N
  = (Raise ValueError, 42%N).
Proof.
  assert (H : any_negative [1; -2; 3]%float = true) by reflexivity.
  split; [exact H |].
  exact (@negative_rate_rejected libm_model lcg 5 _ (PyNdarray ts10) (PyInt 5) true 42%N H).
Defined.

Lemma zero_rate_uniformly_zero : uniformly_zero (PyCallable zero_rate).
Proof.
  intros xs. unfold zero_rate, fits. rewrite length_map, Nat.eqb_refl. split; [reflexivity|].
  induction xs as [|x xs IH]; [reflexivity | exact IH].
Qed.

(** C5 at ten zeros over [ts10], used unaligned, and at the callable
    [zero_rate], seven pulses. *)
Lemma zero_rate_never_terminates_witness :
  (uniformly_zero (PyNdarray (repeat 0%float 10)) /\
   rate_fits_times (PyNdarray (repeat 0%float 10)) ts10 true = true /\
   (2 <= length ts10)%nat /\
   (1 <= 7)%Z /\
   forall fuel g,
     fst (from_inhomogeneous_poisson_process (L := libm_model) (RS := lcg) fuel
            (PyNdarray (repeat 0%float 10)) (PyNdarray ts10) (PyInt 7) true g)
     = OutOfFuel) /\
  (uniformly_zero (PyCallable zero_rate) /\
   forall fuel g,
     fst (from_inhomogeneous_poisson_process (L := libm_model) (RS := lcg) fuel
            (PyCallable zero_rate) (PyNdarray ts10) (PyInt 7) false g)
     = OutOfFuel).
Proof.
  assert (Hz : uniformly_zero (PyNdarray (repeat 0%float 10))) by reflexivity.
  assert (Hs : rate_fits_times (PyNdarray (repeat 0%float 10)) ts10 true = true)
    by reflexivity.
  assert (Hl : (2 <= length ts10)%nat) by (simpl; lia).
  assert (Hn : (1 <= 7)%Z) by lia.
  split.
  - repeat (split; [assumption |]).
    destruct (@zero_rate_never_terminates libm_model lcg _ _ _ _ Hz Hs Hl Hn)
      as (rate' & delta & avg_prob & _ & _ & _ & _ & _ & Hrun).
    exact Hrun.
  - split; [exact zero_rate_uniformly_zero |].
    destruct (@zero_rate_never_terminates libm_model lcg (PyCallable zero_rate) ts10 7
                false zero_rate_uniformly_zero eq_refl Hl Hn)
      as (rate' & delta & avg_prob & _ & _ & _ & _ & _ & Hrun).
    exact Hrun.
Defined.

(** C6 at the two runs above. *)
Lemma returned_sorted_witness :
  forallb (fun t => negb (is_nan t)) ts10 = true /\
  (forall i, (S i < length [1; 4; 7; 8; 9]%float)%nat ->
     (nth i [1; 4; 7; 8; 9] 0 <=? nth (S i) [1; 4; 7; 8; 9] 0)%float = true) /\
  exists out g',
    from_inhomogeneous_poisson_process (L := libm_model) (RS := lcg) 12
      (PyNdarray (repeat 40%float 10)) (PyNdarray ts10) (PyInt 12) true 42%N
    = (Ok out, g') /\
    forall i, (S i < length out)%nat ->
      (nth i out 0 <=? nth (S i) out 0)%float = true.
Proof.
  assert (Hreal : forallb (fun t => negb (is_nan t)) ts10 = true) by reflexivity.
  assert (H : from_inhomogeneous_poisson_process (L := libm_model) (RS := lcg) 5
                (PyNdarray (repeat 5%float 10)) (PyNdarray ts10) (PyInt 5) true 42%N
              = (Ok [1; 4; 7; 8; 9]%float, 14681447096454308151%N))
    by (vm_compute; reflexivity).
  assert (Hsure : sure_step (L := libm_model) (PyNdarray (repeat 40%float 10)) ts10 true
                  = true) by (vm_compute; reflexivity).
  split; [exact Hreal |]. split.
  - exact (proj1 (@returned_sorted libm_model lcg 5 _ _ _ _ _ Hreal) _ _ H).
  - apply (proj2 (@returned_sorted libm_model lcg 12 _ _ _ _ _ Hreal) Hsure); simpl; lia.
Defined.

(** C7 at the same two runs. *)
Lemma returned_members_witness :
  (from_inhomogeneous_poisson_process (L := libm_model) (RS := lcg) 5
     (PyNdarray (repeat 5%float 10)) (PyNdarray ts10) (PyInt 5) true 42%N
   = (Ok [1; 4; 7; 8; 9]%float, 14681447096454308151%N) /\
   forall x, In x [1; 4; 7; 8; 9]%float -> In x ts10) /\
  exists out g',
    from_inhomogeneous_poisson_process (L := libm_model) (RS := lcg) 12
      (PyNdarray (repeat 40%float 10)) (PyNdarray ts10) (PyInt 12) true 42%N
    = (Ok out, g') /\
    forall x, In x out -> In x ts10.
Proof.
  assert (H : from_inhomogeneous_poisson_process (L := libm_model) (RS := lcg) 5
                (PyNdarray (repeat 5%float 10)) (PyNdarray ts10) (PyInt 5) true 42%N
              = (Ok [1; 4; 7; 8; 9]%float, 14681447096454308151%N))
    by (vm_compute; reflexivity).
  assert (Hsure : sure_step (L := libm_model) (PyNdarray (repeat 40%float 10)) ts10 true
                  = true) by (vm_compute; reflexivity).
  split; [split|].
  - exact H.
  - exact (proj1 (@returned_members libm_model lcg 5 _ _ _ _ _) _ _ H).
  - apply (proj2 (@returned_members libm_model lcg 12 _ _ _ _ _) Hsure); simpl; lia.
Defined.

(** C8.  The claim fails on the code at a call that follows the declared
    signature [(rate, same_shape: bool, times, mu)]: the second argument is
    a [bool], which the check on [args[1]] rejects with [TypeError], so
    [NotImplementedError] is not raised for every combination of
    arguments. *)
Lemma cox_process_type_error :
  from_cox_process (RS := lcg) (PyNdarray [1]%float) (PyBool true) (PyNdarray ts10)
    (PyFloat 0.5) 42%N
  = (Raise TypeError, 42%N) /\
  ~ (forall rate same_shape times mu g,
       from_cox_process (RS := lcg) rate same_shape times mu g
       = (Raise NotImplementedError, g)).
Proof.
  assert (H : from_cox_process (RS := lcg) (PyNdarray [1]%float) (PyBool true)
                (PyNdarray ts10) (PyFloat 0.5) 42%N = (Raise TypeError, 42%N))
    by reflexivity.
  split; [exact H |].
  intros Hall. rewrite Hall in H. discriminate H.
Qed.

(** The body is reached only by arguments shaped as [(rate, times,
    total_pulses)], against the declared signature. *)
Lemma cox_process_raises_example :
  from_cox_process (RS := lcg) (PyNdarray [1]%float) (PyNdarray ts10) (PyInt 3) PyNone 42%N
  = (Raise NotImplementedError, 42%N).
Proof. reflexivity. Qed.

(** C9 at three rate values over the ten samples of [ts10]. *)
Lemma short_rate_never_terminates_witness :
  (length [1; 2; 3]%float < length ts10)%nat /\
  any_negative [1; 2; 3]%float = false /\
  (2 <= length ts10)%nat /\
  (1 <= 3)%Z /\
  prepare_rate (PyNdarray [1; 2; 3]%float) ts10 false
  = Ok (PyNdarray (repeat 0%float 10)) /\
  forall fuel g,
    fst (from_inhomogeneous_poisson_process (L := libm_model) (RS := lcg) fuel
           (PyNdarray [1; 2; 3]%float) (PyNdarray ts10) (PyInt 3) false g)
    = OutOfFuel.
Proof.
  assert (Hs : (length [1; 2; 3]%float < length ts10)%nat) by (simpl; lia).
  assert (Hneg : any_negative [1; 2; 3]%float = false) by reflexivity.
  assert (Hl : (2 <= length ts10)%nat) by (simpl; lia).
  assert (Hn : (1 <= 3)%Z) by lia.
  repeat (split; [assumption |]).
  destruct (@short_rate_never_terminates libm_model lcg _ _ _ Hs Hneg Hl Hn)
    as (_ & Hprep & Hrun).
  split; [exact Hprep | exact Hrun].
Defined.

Lemma minus_one_rate_negative : uniformly_negative minus_one_rate.
Proof.
  intros xs. unfold minus_one_rate, fits. rewrite length_map, Nat.eqb_refl.
  split; [reflexivity|].
  induction xs as [|x xs IH]; [reflexivity | exact IH].
Qed.

(** C10 at the callable that is -1 everywhere: the call is not rejected and
    is still collecting candidates after any number of rounds. *)
Lemma callable_rate_not_validated_witness :
  from_inhomogeneous_poisson_process (L := libm_model) (RS := lcg) 6
    (PyCallable minus_one_rate) (PyNdarray ts10) (PyInt 3) false 7%N
  = from_inhomogeneous_poisson_process_func (L := libm_model) (RS := lcg) 6
      (PyCallable minus_one_rate) (PyNdarray ts10) (PyInt 3) false 7%N /\
  uniformly_negative minus_one_rate /\
  positive_step ts10 = true /\
  (1 <= 3)%Z /\
  forall fuel g,
    fst (from_inhomogeneous_poisson_process (L := libm_model) (RS := lcg) fuel
           (PyCallable minus_one_rate) (PyNdarray ts10) (PyInt 3) false g)
    = OutOfFuel.
Proof.
  assert (Hpos : positive_step ts10 = true) by reflexivity.
  assert (Hn : (1 <= 3)%Z) by lia.
  destruct (@callable_rate_not_validated libm_model lcg minus_one_rate ts10 3 false)
    as (Hpass & _ & Hrun).
  split; [exact (Hpass 6%nat 7%N) |].
  split; [exact minus_one_rate_negative |].
  split; [exact Hpos |]. split; [exact Hn |].
  exact (Hrun minus_one_rate_negative Hpos Hn).
Defined.

(** A time axis with a single sample has no step: the first round raises
    [IndexError] at [times[1]], whatever the rate. *)
Lemma single_sample_axis_raises :
  from_inhomogeneous_poisson_process (L := libm_model) (RS := lcg) 6
    (PyNdarray [0]%float) (PyNdarray [0]%float) (PyInt 3) true 7%N
  = (Raise IndexError, 7%N).
Proof. reflexivity. Qed.

(** * Further properties of the module *)

(** ** The argument checks *)

Section ArgumentChecks.
Context {RS : RandomState}.

(** X1.  With three or more positional arguments [check_types_wrapper]
    either runs the decorated function unchanged, exactly when the first
    argument is a callable or an array without negative element, the second
    an array and the third an int, or raises without touching the generator:
    [ValueError] exactly for an array rate with a negative element, whatever
    the other arguments, and [TypeError] otherwise. *)
Theorem check_types_verdict {A : Type} (a0 a1 a2 : pyval) (rest : list pyval)
  (func : M A) (g : rng) :
  check_types_wrapper (a0 :: a1 :: a2 :: rest) func g =
  if accepted_rate a0 && isinstance_ndarray a1 && isinstance_int a2 then func g
  else (Raise (match a0 with
               | PyNdarray r => if any_negative r then ValueError else TypeError
               | _ => TypeError
               end), g).
Proof.
  unfold check_types_wrapper, raise. simpl.
  destruct a0 as [r|f| | | |]; simpl; try reflexivity.
  - destruct (any_negative r); simpl; [reflexivity|].
    destruct (isinstance_ndarray a1); simpl; [|reflexivity].
    destruct (isinstance_int a2); reflexivity.
  - destruct (isinstance_ndarray a1); simpl; [|reflexivity].
    destruct (isinstance_int a2); reflexivity.
Qed.

(** X2.  With fewer than three positional arguments (the others given by
    keyword, say) the decorated function is never called: the wrapper
    raises, the generator untouched, and the exception is [IndexError]
    whenever the arguments that are present pass their checks. *)
Theorem check_types_missing_arguments {A : Type} (args : list pyval)
  (func : M A) (g : rng) :
  (length args < 3)%nat ->
  exists e,
    check_types_wrapper args func g = (Raise e, g) /\
    (forallb accepted_rate (firstn 1 args) = true ->
     forallb isinstance_ndarray (firstn 1 (skipn 1 args)) = true ->
     e = IndexError).
Proof.
  intros Hlen. unfold check_types_wrapper, raise.
  destruct args as [|a0 [|a1 [|a2 args]]]; simpl in *; try lia.
  - exists IndexError. split; reflexivity.
  - destruct a0 as [r|f| | | |]; simpl;
      try (exists TypeError; split; [reflexivity | discriminate]).
    + destruct (any_negative r); simpl;
        [exists ValueError; split; [reflexivity | discriminate]
        | exists IndexError; split; reflexivity].
    + exists IndexError. split; reflexivity.
  - destruct a0 as [r|f| | | |]; simpl;
      try (exists TypeError; split; [reflexivity | discriminate]).
    + destruct (any_negative r); simpl;
        [exists ValueError; split; [reflexivity | discriminate]|].
      destruct (isinstance_ndarray a1); simpl;
        [exists IndexError; split; reflexivity
        | exists TypeError; split; [reflexivity | discriminate]].
    + destruct (isinstance_ndarray a1); simpl;
        [exists IndexError; split; reflexivity
        | exists TypeError; split; [reflexivity | discriminate]].
Qed.

End ArgumentChecks.

(** ** Edge cases of [from_inhomogeneous_poisson_process] *)

Section PoissonEdgeCases.
Context {L : Libm} {RS : RandomState}.

Lemma broadcast_mismatch {A : Type} (f : float -> float -> A) (a b : list float) :
  length a <> length b -> length a <> 1%nat -> length b <> 1%nat ->
  broadcast f a b = Raise ValueError.
Proof.
  intros Hab Ha Hb. unfold broadcast.
  replace (length a =? length b)%nat with false by (symmetry; now apply Nat.eqb_neq).
  destruct a as [|x [|x' a]], b as [|y [|y' b]]; simpl in *;
    try reflexivity; contradiction.
Qed.

Lemma accumulate_first_round (fuel : nat) (rate : pyval) (times : list float) (n : Z)
  (g : rng) :
  (1 <= n)%Z ->
  accumulate (S fuel) rate times n [] g
  = bind (round rate times []) (accumulate fuel rate times n) g.
Proof.
  intros Hn. simpl.
  replace (0 <? n)%Z with true by (symmetry; apply Z.ltb_lt; lia). reflexivity.
Qed.

(** X3.  A time axis with fewer than two samples has no step: for a rate
    that passes the checks and [total_pulses >= 1] the call raises
    [IndexError] at [times[1]] in its first round, or [ZeroDivisionError]
    when an array rate is to be aligned to an empty axis, and the generator
    is left untouched. *)
Theorem short_time_axis_raises (fuel : nat) (rate : pyval) (times : list float)
  (total_pulses : Z) (same_shape : bool) (g : rng) :
  accepted_rate rate = true ->
  (length times < 2)%nat ->
  (1 <= total_pulses)%Z ->
  from_inhomogeneous_poisson_process (S fuel) rate (PyNdarray times) (PyInt total_pulses)
    same_shape g
  = (Raise (match rate, times with
            | PyNdarray _, [] => if same_shape then IndexError else ZeroDivisionError
            | _, _ => IndexError
            end), g).
Proof.
  intros Hacc Hlen Hn. unfold from_inhomogeneous_poisson_process.
  rewrite check_types_wrapper_pass by (assumption || reflexivity).
  unfold from_inhomogeneous_poisson_process_func.
  assert (Hround : forall rate',
            bind (accumulate (S fuel) rate' times total_pulses [])
              (fun arrival_times =>
                 arrival_times0 <- choice arrival_times total_pulses ;;
                 ret (np_sort arrival_times0)) g
            = (Raise IndexError, g)).
  { intros rate'. unfold bind at 1. rewrite accumulate_first_round by exact Hn.
    unfold bind at 1. unfold round. unfold bind at 1. unfold lift.
    unfold average_probability.
    destruct times as [|t0 [|t1 rest]]; simpl in Hlen; try lia; reflexivity. }
  destruct rate as [r|f| | | |]; try discriminate Hacc.
  - unfold bind at 1. unfold lift. unfold prepare_rate.
    destruct same_shape; simpl negb; cbv iota.
    + rewrite Hround. now destruct times.
    + destruct times as [|t0 rest].
      * reflexivity.
      * rewrite (align_rate_eq r (t0 :: rest)) by discriminate.
        cbn [obind]. rewrite Hround. reflexivity.
  - unfold bind at 1. unfold lift. cbn [prepare_rate]. rewrite Hround.
    now destruct times.
Qed.

(** X4.  An array rate used as it is ([same_shape] true) whose length is
    neither [len(times)] nor 1 is rejected only in the first round, by the
    comparison of the throws with the probabilities: [ValueError], after
    [len(times)] uniform throws have been drawn from the generator. *)
Theorem shape_mismatch_raises (fuel : nat) (rate times : list float)
  (total_pulses : Z) (g : rng) :
  any_negative rate = false ->
  (2 <= length times)%nat ->
  length rate <> length times ->
  length rate <> 1%nat ->
  (1 <= total_pulses)%Z ->
  from_inhomogeneous_poisson_process (S fuel) (PyNdarray rate) (PyNdarray times)
    (PyInt total_pulses) true g
  = (Raise ValueError, snd (uniform (length times) g)).
Proof.
  intros Hneg Hlen Hne H1 Hn. unfold from_inhomogeneous_poisson_process.
  rewrite check_types_wrapper_pass by (simpl; rewrite ?Hneg; reflexivity).
  unfold from_inhomogeneous_poisson_process_func.
  unfold bind at 1. unfold lift. cbn [prepare_rate negb].
  unfold bind at 1. rewrite accumulate_first_round by exact Hn.
  unfold bind at 1. unfold round. unfold bind at 1. unfold lift.
  destruct times as [|t0 [|t1 rest]]; try (simpl in Hlen; lia).
  set (times := t0 :: t1 :: rest) in *.
  assert (Hp : average_probability (PyNdarray rate) times
               = Ok (acceptance (t1 - t0) rate)) by reflexivity.
  rewrite Hp. unfold bind at 1.
  pose proof (uniform_length (length times) g) as Hul.
  destruct (uniform (length times) g) as [us g1]. simpl in Hul |- *.
  unfold bind at 1.
  rewrite broadcast_mismatch; [reflexivity | | |].
  - unfold acceptance. rewrite length_map, Hul. intros E. apply Hne. symmetry. exact E.
  - rewrite Hul. subst times. simpl. lia.
  - unfold acceptance. now rewrite length_map.
Qed.

(** X5.  A negative [total_pulses] passes the checks (it is an int), runs no
    round and is rejected by the final draw: [ValueError], with no throw
    drawn, for every rate that passes the checks over a non-empty axis. *)
Theorem negative_pulses_raise (fuel : nat) (rate : pyval) (times : list float)
  (total_pulses : Z) (same_shape : bool) (g : rng) :
  accepted_rate rate = true ->
  times <> [] ->
  (total_pulses < 0)%Z ->
  from_inhomogeneous_poisson_process fuel rate (PyNdarray times) (PyInt total_pulses)
    same_shape g
  = (Raise ValueError, g).
Proof.
  intros Hacc Hne Hn. unfold from_inhomogeneous_poisson_process.
  rewrite check_types_wrapper_pass by (assumption || reflexivity).
  unfold from_inhomogeneous_poisson_process_func.
  assert (Hrest : forall rate',
            bind (accumulate fuel rate' times total_pulses [])
              (fun arrival_times =>
                 arrival_times0 <- choice arrival_times total_pulses ;;
                 ret (np_sort arrival_times0)) g
            = (Raise ValueError, g)).
  { intros rate'. unfold bind at 1.
    assert (Hacc0 : accumulate fuel rate' times total_pulses [] g = (Ok [], g)).
    { destruct fuel; simpl;
        replace (0 <? total_pulses)%Z with false by (symmetry; apply Z.ltb_ge; lia);
        reflexivity. }
    rewrite Hacc0. unfold bind, choice.
    replace (total_pulses <? 0)%Z with true by (symmetry; apply Z.ltb_lt; lia).
    reflexivity. }
  destruct rate as [r|f| | | |]; try discriminate Hacc.
  - unfold bind at 1. unfold lift. unfold prepare_rate.
    destruct same_shape; simpl negb; cbv iota.
    + apply Hrest.
    + rewrite (align_rate_eq r times Hne). cbn [obind]. apply Hrest.
  - unfold bind at 1. unfold lift. cbn [prepare_rate]. apply Hrest.
Qed.

End PoissonEdgeCases.

(** ** Where the arrival times come from *)

Section ArrivalOrigins.
Context {L : Libm} {RS : RandomState}.
Open Scope float_scope.

Lemma SFleb_ltb_trans (x y z : spec_float) :
  SFleb x y = true -> SFltb y z = true -> SFltb x z = true.
Proof.
  unfold SFltb, SFleb.
  destruct x as [[]|[]| |[] mx ex], y as [[]|[]| |[] my ey], z as [[]|[]| |[] mz ez];
    cbn [SFcompare]; try reflexivity; try discriminate;
    change (Pos.compare_cont Eq) with Pos.compare;
    destruct (Z.compare_spec ex ey); try discriminate;
    destruct (Z.compare_spec ey ez); try discriminate;
    destruct (Z.compare_spec ex ez); try reflexivity; try lia;
    destruct (Pos.compare_spec mx my); cbn [CompOpp]; try discriminate;
    destruct (Pos.compare_spec my mz); cbn [CompOpp]; try discriminate;
    destruct (Pos.compare_spec mx mz); cbn [CompOpp]; try reflexivity; lia.
Qed.

Lemma leb_ltb_trans (u v p : float) :
  (u <=? v) = true -> (v <? p) = true -> (u <? p) = true.
Proof.
  rewrite !FloatAxioms.ltb_spec, FloatAxioms.leb_spec. apply SFleb_ltb_trans.
Qed.

Lemma select_true_index (a : list float) (mask : list bool) (x : float) :
  In x (select a mask) ->
  exists i, nth_error a i = Some x /\ nth i mask false = true.
Proof.
  revert mask; induction a as [|y a IH]; intros [|b mask]; simpl; try contradiction.
  destruct b.
  - intros [<- | Hx]; [exists O; split; reflexivity|].
    destruct (IH mask Hx) as (i & Hi & Hm). exists (S i). split; assumption.
  - intros Hx. destruct (IH mask Hx) as (i & Hi & Hm). exists (S i). split; assumption.
Qed.

Lemma accumulate_Forall (P : float -> Prop) (fuel : nat) (rate : pyval)
  (times : list float) (n : Z) :
  (forall arr g arr' g',
     round rate times arr g = (Ok arr', g') ->
     exists acc, arr' = arr ++ acc /\ Forall P acc) ->
  forall arr g out g',
    accumulate fuel rate times n arr g = (Ok out, g') ->
    Forall P arr -> Forall P out.
Proof.
  intros Hround. induction fuel as [|fuel IH]; intros arr g out g'; simpl;
    destruct (Z.of_nat (length arr) <? n)%Z;
    try (unfold ret; intros [= <- <-] Harr; exact Harr).
  intros H Harr. apply bind_ok in H as (arr1 & g1 & Hr & H).
  apply (IH _ _ _ _ H).
  destruct (Hround _ _ _ _ Hr) as (acc & -> & Hacc).
  apply Forall_app. split; assumption.
Qed.

(** The candidates behind a returned sequence. *)
Lemma func_pool (fuel : nat) (rate times total_pulses : pyval) (same_shape : bool)
  (g g' : rng) (out : list float) :
  from_inhomogeneous_poisson_process_func fuel rate times total_pulses same_shape g
    = (Ok out, g') ->
  exists ts n rate' pool g1,
    times = PyNdarray ts /\
    prepare_rate rate ts same_shape = Ok rate' /\
    accumulate fuel rate' ts n [] g = (Ok pool, g1) /\
    incl out pool.
Proof.
  unfold from_inhomogeneous_poisson_process_func.
  destruct times as [ts| | | | |]; try (destruct total_pulses; discriminate).
  set (n := match total_pulses with
            | PyInt n => n | PyBool b => Z.b2z b | _ => 0%Z end).
  intros H.
  assert (H' : (rate' <- lift (prepare_rate rate ts same_shape) ;;
                arrival_times <- accumulate fuel rate' ts n [] ;;
                arrival_times0 <- choice arrival_times n ;;
                ret (np_sort arrival_times0)) g = (Ok out, g')).
  { destruct total_pulses; try discriminate; exact H. }
  clear H. rename H' into H.
  apply bind_ok in H as (rate' & g1 & H1 & H).
  apply lift_ok in H1 as [H1 ->].
  apply bind_ok in H as (pool & g2 & H2 & H).
  apply bind_ok in H as (drawn & g3 & H3 & H).
  unfold ret in H. injection H as <- <-.
  apply choice_ok in H3 as [_ Hincl].
  exists ts, n, rate', pool, g2. repeat split; try assumption.
  intros x Hx. apply Hincl.
  apply (Permutation_in x (Permutation_sym (np_sort_perm drawn)) Hx).
Qed.

(** X6.  On the callable-rate path too, every value of a returned sequence
    is an element of [times]. *)
Theorem callable_returned_members (fuel : nat) (f : list float -> list float)
  (times : list float) (total_pulses : Z) (same_shape : bool) (g g' : rng)
  (out : list float) :
  from_inhomogeneous_poisson_process fuel (PyCallable f) (PyNdarray times)
    (PyInt total_pulses) same_shape g = (Ok out, g') ->
  forall x, In x out -> In x times.
Proof.
  intros H x Hx. apply check_types_wrapper_ok in H.
  apply func_ok in H as (ts & n & pool & [= <-] & _ & Hpool & _ & Hout & _).
  apply Hpool, Hout, Hx.
Qed.

(** X7.  With an array rate that has one value per time sample once
    prepared, every value of a returned sequence is the time of a step whose
    rate is not zero and whose acceptance probability is strictly positive:
    a step with zero rate never gives an arrival. *)
Theorem arrivals_have_positive_probability (fuel : nat) (rate rate' times : list float)
  (total_pulses : Z) (same_shape : bool) (g g' : rng) (out : list float) :
  from_inhomogeneous_poisson_process fuel (PyNdarray rate) (PyNdarray times)
    (PyInt total_pulses) same_shape g = (Ok out, g') ->
  prepare_rate (PyNdarray rate) times same_shape = Ok (PyNdarray rate') ->
  length rate' = length times ->
  forall x, In x out ->
    exists i delta,
      time_step times = Ok delta /\
      nth_error times i = Some x /\
      is_zero (nth i rate' 0) = false /\
      (0 <? thinning delta (nth i rate' 0)) = true.
Proof.
  intros H Hprep Hlen x Hx. apply check_types_wrapper_ok in H.
  apply func_pool in H as (ts & n & r0 & pool & g1 & [= <-] & Hprep' & Hacc & Hout).
  rewrite Hprep in Hprep'. injection Hprep' as <-.
  set (P := fun x : float =>
              exists i delta,
                time_step times = Ok delta /\
                nth_error times i = Some x /\
                is_zero (nth i rate' 0) = false /\
                (0 <? thinning delta (nth i rate' 0)) = true).
  assert (Hpool : Forall P pool).
  { apply (accumulate_Forall P fuel (PyNdarray rate') times n)
      with (arr := []) (g := g) (g' := g1); [| exact Hacc | constructor].
    intros arr g0 arr' g0' Hr.
    apply round_thinning in Hr
      as (t0 & t1 & rest & avg_rate & mask & Ht & _ & -> & Hb & Hml & -> & _).
    exists (select times mask). split; [reflexivity|].
    apply Forall_forall. intros y Hy.
    apply select_true_index in Hy as (i & Hi & Hm).
    pose proof (uniform_length (length times) g0) as Hul.
    pose proof (uniform_range (length times) g0) as Hur.
    remember (fst (uniform (length times) g0)) as us eqn:Hus.
    assert (Hlen' : length us = length (map (thinning (t1 - t0)) rate'))
      by (now rewrite length_map, Hul, Hlen).
    unfold broadcast in Hb. rewrite Hlen', Nat.eqb_refl in Hb.
    injection Hb as <-. rewrite (nth_mask _ _ i Hlen') in Hm.
    assert (Hi' : (i < length times)%nat) by (apply nth_error_Some; congruence).
    assert (Hpos : (0 <? thinning (t1 - t0) (nth i rate' 0)) = true).
    { rewrite (nth_indep (map (thinning (t1 - t0)) rate') 0 (thinning (t1 - t0) 0)) in Hm
        by (now rewrite length_map, Hlen).
      rewrite map_nth in Hm.
      apply (leb_ltb_trans 0 (nth i us 0)); [|exact Hm].
      rewrite Forall_forall in Hur. apply Hur, nth_In. now rewrite Hul. }
    exists i, (t1 - t0). subst times. repeat split; try assumption; try reflexivity.
    destruct (is_zero (nth i rate' 0)) eqn:Hz; [|reflexivity].
    pose proof (ltb_not_positive 0 (thinning (t1 - t0) (nth i rate' 0)) eq_refl) as Hnp.
    rewrite Hnp in Hpos; [discriminate|].
    apply zero_or_nan_not_positive.
    destruct (thinning_zero (t1 - t0) _ Hz) as [-> | [-> _]]; auto. }
  rewrite Forall_forall in Hpool. apply Hpool, Hout, Hx.
Qed.

End ArrivalOrigins.

(** ** The cumulative-sum variant *)

Section CumulativeSum.
Context {RS : RandomState}.

Lemma nth_error_stride_from (ratio k i : nat) (a : list float) :
  (1 <= ratio)%nat ->
  nth_error (stride_from ratio k a) i = nth_error a (k + i * ratio).
Proof.
  intros Hr. revert k i; induction a as [|x a IH]; intros k i.
  - simpl. generalize (k + i * ratio)%nat. intros j. now destruct i, j.
  - destruct k as [|k].
    + destruct i as [|i]; [reflexivity|].
      cbn [stride_from nth_error]. rewrite IH.
      replace (0 + S i * ratio)%nat with (S (ratio - 1 + i * ratio)) by lia.
      reflexivity.
    + cbn [stride_from]. rewrite IH.
      replace (S k + i * ratio)%nat with (S (k + i * ratio)) by lia.
      reflexivity.
Qed.

Lemma length_stride_from (ratio k : nat) (a : list float) :
  (length (stride_from ratio k a) <= length a)%nat.
Proof.
  revert k; induction a as [|x a IH]; intros k; simpl; [lia|].
  destruct k; simpl; [specialize (IH (ratio - 1)%nat) | specialize (IH k)]; lia.
Qed.

Lemma length_slice_to (n : Z) (a : list float) :
  (length (slice_to n a) <= length a)%nat.
Proof.
  unfold slice_to. destruct (0 <=? n)%Z; rewrite length_firstn; lia.
Qed.

Lemma nth_of_nth_error (l l' : list float) (i j : nat) (d : float) :
  nth_error l i = nth_error l' j -> nth i l d = nth j l' d.
Proof.
  intros H. destruct (nth_error l' j) as [x|] eqn:E.
  - now rewrite (nth_error_nth l i d H), (nth_error_nth l' j d E).
  - apply nth_error_None in H, E. now rewrite !nth_overflow.
Qed.

(** The picks of [rate[::ratio][:n]] for [ratio = len(rate) // n]. *)
Lemma subsample_picks (r : list float) (n : nat) :
  (1 <= n <= length r)%nat ->
  length (firstn n (strided (length r / n) r)) = n /\
  forall i, (i < n)%nat ->
    nth i (firstn n (strided (length r / n) r)) 0%float
    = nth (i * (length r / n)) r 0%float.
Proof.
  intros Hn. set (q := (length r / n)%nat).
  assert (Hq : (1 <= q)%nat) by (apply Nat.div_str_pos; lia).
  assert (Hmul : (n * q <= length r)%nat) by apply Nat.Div0.mul_div_le.
  assert (Hpick : forall i, nth_error (strided q r) i = nth_error r (i * q))
    by (intros i; unfold strided; now rewrite nth_error_stride_from).
  assert (Hlen : (n <= length (strided q r))%nat).
  { assert (Hlast : nth_error (strided q r) (n - 1) <> None).
    { rewrite Hpick. apply nth_error_Some. nia. }
    apply nth_error_Some in Hlast. lia. }
  split.
  - rewrite length_firstn. lia.
  - intros i Hi. rewrite nth_firstn.
    replace (i <? n)%nat with true by (symmetry; now apply Nat.ltb_lt).
    apply nth_of_nth_error, Hpick.
Qed.

Lemma length_cumsum_from (acc : float) (a : list float) :
  length (cumsum_from acc a) = length a.
Proof.
  revert acc; induction a as [|x a IH]; intros acc; simpl; [reflexivity|].
  now rewrite IH.
Qed.

Lemma length_cumsum (a : list float) : length (cumsum a) = length a.
Proof. destruct a; simpl; [reflexivity | now rewrite length_cumsum_from]. Qed.

(** The ratio of the subsampling when there are enough rate values. *)
Lemma subsample_ratio (len : nat) (n : Z) :
  (1 <= n <= Z.of_nat len)%Z ->
  Z.to_nat (Z.max (Z.quot (Z.of_nat len) n) 1) = (len / Z.to_nat n)%nat.
Proof.
  intros Hn. rewrite Z.quot_div_nonneg by lia.
  assert (H1 : (1 <= Z.of_nat len / n)%Z).
  { apply Z.div_le_lower_bound; lia. }
  rewrite Z.max_l by lia.
  rewrite Z2Nat.inj_div by lia. now rewrite Nat2Z.id.
Qed.

Lemma from_cumsum_array (r times : list float) (n : Z) (same_shape : bool) (g : rng) :
  any_negative r = false ->
  from_cumsum (PyNdarray r) (PyNdarray times) (PyInt n) same_shape g =
  (if negb same_shape && (n =? 0)%Z then Raise ZeroDivisionError
   else if negb (Z.of_nat (length (realization r n same_shape)) =? n)%Z
        then Raise ValueError
        else match times with
             | [] => Raise IndexError
             | _ :: _ =>
                 Ok (map (fun c => c / np_sum (realization r n same_shape)
                                   * last times 0)%float
                       (cumsum (realization r n same_shape)))
             end, g).
Proof.
  intros Hneg. unfold from_cumsum.
  rewrite check_types_wrapper_pass by (simpl; rewrite ?Hneg; reflexivity).
  unfold lift, from_cumsum_func, realization. cbn [obind].
  destruct same_shape; cbn [negb andb]; [reflexivity|].
  destruct (n =? 0)%Z; reflexivity.
Qed.

Lemma length_realization (r : list float) (n : Z) :
  (1 <= n <= Z.of_nat (length r))%Z ->
  Z.of_nat (length (realization r n false)) = n.
Proof.
  intros Hn. unfold realization, slice_to.
  replace (0 <=? n)%Z with true by (symmetry; apply Z.leb_le; lia).
  rewrite subsample_ratio by exact Hn.
  destruct (subsample_picks r (Z.to_nat n)) as [Hl _]; [lia|].
  rewrite Hl. lia.
Qed.

Lemma length_realization_le (r : list float) (n : Z) (same_shape : bool) :
  (length (realization r n same_shape) <= length r)%nat.
Proof.
  unfold realization. destruct same_shape; [lia|].
  etransitivity; [apply length_slice_to | apply length_stride_from].
Qed.

Lemma stride_from_incl (ratio k : nat) (a : list float) :
  incl (stride_from ratio k a) a.
Proof.
  revert k; induction a as [|x a IH]; intros k; simpl; [apply incl_refl|].
  destruct k.
  - apply incl_cons; [now left | apply incl_tl, IH].
  - apply incl_tl, IH.
Qed.

Lemma firstn_incl (n : nat) (a : list float) : incl (firstn n a) a.
Proof.
  intros x Hx. rewrite <- (firstn_skipn n a). apply in_or_app. now left.
Qed.

Lemma realization_incl (r : list float) (n : Z) (same_shape : bool) :
  incl (realization r n same_shape) r.
Proof.
  unfold realization. destruct same_shape; [apply incl_refl|].
  intros x Hx. unfold slice_to in Hx.
  eapply stride_from_incl.
  destruct (0 <=? n)%Z; eapply firstn_incl; exact Hx.
Qed.

Lemma any_negative_incl (a b : list float) :
  incl b a -> any_negative a = false -> any_negative b = false.
Proof.
  unfold any_negative. intros Hincl Ha.
  destruct (existsb (fun x => (x <? 0)%float) b) eqn:E; [|reflexivity].
  apply existsb_exists in E as (x & Hx & Hlt).
  rewrite <- Ha. symmetry. apply existsb_exists. exists x. split; [apply Hincl, Hx | exact Hlt].
Qed.

(** X8.  A sequence returned by [from_cumsum] has length exactly
    [total_pulses], for an array and for a callable rate alike, and the
    call leaves the random generator as it was. *)
Theorem from_cumsum_length (rate : pyval) (times : list float) (total_pulses : Z)
  (same_shape : bool) (g g' : rng) (out : list float) :
  from_cumsum rate (PyNdarray times) (PyInt total_pulses) same_shape g = (Ok out, g') ->
  Z.of_nat (length out) = total_pulses /\ g' = g.
Proof.
  intros H. apply check_types_wrapper_ok in H. apply lift_ok in H as [H ->].
  split; [|reflexivity].
  unfold from_cumsum_func in H.
  destruct (match rate with
            | PyNdarray r => Ok r
            | PyCallable f => Ok (f times)
            | _ => Raise TypeError
            end) as [rr0 | |]; try discriminate. cbn [obind] in H.
  destruct (if negb same_shape
            then if (total_pulses =? 0)%Z then Raise ZeroDivisionError
                 else Ok (slice_to total_pulses
                            (strided (Z.to_nat (Z.max (Z.quot (Z.of_nat (length rr0))
                                                         total_pulses) 1)) rr0))
            else Ok rr0) as [rr | |]; try discriminate. cbn [obind] in H.
  destruct (Z.of_nat (length rr) =? total_pulses)%Z eqn:E; try discriminate.
  apply Z.eqb_eq in E. cbn [negb] in H.
  destruct times; try discriminate. injection H as <-.
  now rewrite length_map, length_cumsum.
Qed.

(** X9.  With [same_shape] false and at least [total_pulses >= 1] rate
    values, [from_cumsum] keeps the values [rate[0], rate[k], rate[2k], ...],
    [k = len(rate) // total_pulses], exactly [total_pulses] of them, and
    over a non-empty time axis returns what it returns for these values
    alone with [same_shape] true; values of the rate at other places have
    no effect. *)
Theorem from_cumsum_subsamples (rate times : list float) (total_pulses : Z) (g : rng) :
  any_negative rate = false ->
  times <> [] ->
  (1 <= total_pulses <= Z.of_nat (length rate))%Z ->
  exists picked out,
    length picked = Z.to_nat total_pulses /\
    (forall i, (i < Z.to_nat total_pulses)%nat ->
       nth i picked 0%float
       = nth (i * (length rate / Z.to_nat total_pulses)) rate 0%float) /\
    from_cumsum (PyNdarray rate) (PyNdarray times) (PyInt total_pulses) false g
    = (Ok out, g) /\
    from_cumsum (PyNdarray picked) (PyNdarray times) (PyInt total_pulses) true g
    = (Ok out, g).
Proof.
  intros Hneg Hne Hn.
  pose proof (length_realization rate total_pulses Hn) as Hlen.
  exists (realization rate total_pulses false).
  exists (map (fun c => c / np_sum (realization rate total_pulses false)
                        * last times 0)%float
            (cumsum (realization rate total_pulses false))).
  split; [lia|]. split; [|split].
  - unfold realization, slice_to.
    replace (0 <=? total_pulses)%Z with true by (symmetry; apply Z.leb_le; lia).
    rewrite subsample_ratio by exact Hn.
    apply subsample_picks. lia.
  - rewrite (from_cumsum_array rate times total_pulses false g Hneg).
    replace (total_pulses =? 0)%Z with false by (symmetry; apply Z.eqb_neq; lia).
    rewrite Hlen, Z.eqb_refl. cbn [negb andb].
    destruct times; [contradiction | reflexivity].
  - rewrite from_cumsum_array
      by (apply (any_negative_incl rate); [apply realization_incl | exact Hneg]).
    cbn [negb andb]. change (realization ?r total_pulses true) with r.
    rewrite Hlen, Z.eqb_refl. cbn [negb].
    destruct times; [contradiction | reflexivity].
Qed.

(** X10.  The outcome of [from_cumsum] on an array rate that passes the
    checks, by cases that exclude each other: [ZeroDivisionError] for zero
    pulses with [same_shape] false; [ValueError] when the rate has not
    exactly [total_pulses] values ([same_shape] true) or has fewer than
    [total_pulses] or [total_pulses] is negative ([same_shape] false);
    [IndexError] for an empty time axis; a sequence of [total_pulses]
    values otherwise.  The call always ends and never uses the generator. *)
Theorem from_cumsum_outcome (rate times : list float) (total_pulses : Z)
  (same_shape : bool) (g : rng) :
  any_negative rate = false ->
  snd (from_cumsum (PyNdarray rate) (PyNdarray times) (PyInt total_pulses) same_shape g)
  = g /\
  match fst (from_cumsum (PyNdarray rate) (PyNdarray times) (PyInt total_pulses)
               same_shape g) with
  | Raise ZeroDivisionError => same_shape = false /\ total_pulses = 0%Z
  | Raise ValueError =>
      if same_shape then Z.of_nat (length rate) <> total_pulses
      else (Z.of_nat (length rate) < total_pulses \/ total_pulses < 0)%Z
  | Raise IndexError =>
      times = [] /\
      (if same_shape then Z.of_nat (length rate) = total_pulses
       else (1 <= total_pulses <= Z.of_nat (length rate))%Z)
  | Ok out =>
      times <> [] /\
      (if same_shape then Z.of_nat (length rate) = total_pulses
       else (1 <= total_pulses <= Z.of_nat (length rate))%Z) /\
      Z.of_nat (length out) = total_pulses
  | Raise _ | OutOfFuel => False
  end.
Proof.
  intros Hneg. rewrite (from_cumsum_array rate times total_pulses same_shape g Hneg).
  split; [reflexivity|]. cbn [fst].
  assert (Hshape : (same_shape = false -> total_pulses <> 0%Z) ->
                   Z.of_nat (length (realization rate total_pulses same_shape))
                   = total_pulses ->
                   if same_shape then Z.of_nat (length rate) = total_pulses
                   else (1 <= total_pulses <= Z.of_nat (length rate))%Z).
  { pose proof (length_realization_le rate total_pulses same_shape) as Hle.
    destruct same_shape; [exact (fun _ H => H)|]. intros Hnz H.
    specialize (Hnz eq_refl). lia. }
  destruct same_shape; cbn [negb andb].
  - destruct (Z.of_nat (length (realization rate total_pulses true)) =? total_pulses)%Z
      eqn:E; cbn [negb].
    + apply Z.eqb_eq in E. specialize (Hshape (fun H => False_ind _ (diff_true_false H)) E).
      destruct times; [split; [reflexivity | exact Hshape]|].
      split; [discriminate|]. split; [exact Hshape|].
      now rewrite length_map, length_cumsum.
    + apply Z.eqb_neq in E. exact E.
  - destruct (total_pulses =? 0)%Z eqn:E0.
    + apply Z.eqb_eq in E0. split; [reflexivity | exact E0].
    + apply Z.eqb_neq in E0.
      destruct (Z.of_nat (length (realization rate total_pulses false)) =? total_pulses)%Z
        eqn:E; cbn [negb].
      * apply Z.eqb_eq in E. specialize (Hshape (fun _ => E0) E).
        destruct times; [split; [reflexivity | exact Hshape]|].
        split; [discriminate|]. split; [exact Hshape|].
        now rewrite length_map, length_cumsum.
      * apply Z.eqb_neq in E.
        destruct (Z_lt_le_dec total_pulses 0) as [Hlt | Hge]; [now right|].
        destruct (Z_lt_le_dec (Z.of_nat (length rate)) total_pulses) as [Hs | Hs];
          [now left|].
        exfalso. apply E. apply length_realization. lia.
Qed.

End CumulativeSum.

(** ** A rate array with a single value *)

Section SingleRate.
Context {L : Libm} {RS : RandomState}.

Lemma combine_repeat {A : Type} (f : float -> float -> A) (us : list float) (p : float) :
  map (fun q => f (fst q) (snd q)) (combine us (repeat p (length us)))
  = map (fun x => f x p) us.
Proof.
  induction us as [|u us IH]; simpl; [reflexivity | now rewrite IH].
Qed.

Lemma broadcast_single {A : Type} (f : float -> float -> A) (us : list float) (p : float) :
  broadcast f us [p] = broadcast f us (repeat p (length us)).
Proof.
  unfold broadcast at 2. rewrite repeat_length, Nat.eqb_refl, combine_repeat.
  unfold broadcast. destruct us as [|u [|u' us]]; reflexivity.
Qed.

Lemma round_single (r : float) (times arr : list float) (g : rng) :
  round (PyNdarray [r]) times arr g
  = round (PyNdarray (repeat r (length times))) times arr g.
Proof.
  unfold round. unfold bind at 1 5. unfold lift at 1 4.
  destruct times as [|t0 [|t1 rest]]; try reflexivity.
  set (times := t0 :: t1 :: rest).
  assert (H1 : average_probability (PyNdarray [r]) times
               = Ok [thinning (t1 - t0) r]) by reflexivity.
  assert (Hn : average_probability (PyNdarray (repeat r (length times))) times
               = Ok (repeat (thinning (t1 - t0) r) (length times))).
  { unfold average_probability, acceptance. cbn [time_step times obind average_rate].
    now rewrite map_repeat. }
  rewrite H1, Hn. unfold bind at 1 4.
  pose proof (uniform_length (length times) g) as Hul.
  destruct (uniform (length times) g) as [us g1]. cbn [fst] in Hul.
  unfold bind at 1 3. unfold lift at 1 3.
  rewrite <- Hul at 1. now rewrite <- broadcast_single.
Qed.

Lemma accumulate_single (fuel : nat) (r : float) (times : list float) (n : Z)
  (arr : list float) (g : rng) :
  accumulate fuel (PyNdarray [r]) times n arr g
  = accumulate fuel (PyNdarray (repeat r (length times))) times n arr g.
Proof.
  revert arr g; induction fuel as [|fuel IH]; intros arr g; simpl; [reflexivity|].
  destruct (Z.of_nat (length arr) <? n)%Z; [|reflexivity].
  unfold bind. rewrite round_single.
  destruct (round (PyNdarray (repeat r (length times))) times arr g) as [[arr'| |] g1];
    [apply IH | reflexivity | reflexivity].
Qed.

Lemma any_negative_repeat (r : float) (n : nat) :
  any_negative (repeat r (S n)) = any_negative [r].
Proof.
  unfold any_negative. induction n as [|n IH]; [reflexivity|].
  change (repeat r (S (S n))) with (r :: repeat r (S n)).
  cbn [existsb]. rewrite IH. cbn [existsb].
  now destruct (r <? 0)%float.
Qed.

(** X11.  With [same_shape] true, a rate array holding a single value is
    stretched over the time axis: the call behaves, result and generator
    alike, as with that value repeated [len(times)] times. *)
Theorem single_rate_is_constant (fuel : nat) (r : float) (times : list float)
  (total_pulses : pyval) (g : rng) :
  times <> [] ->
  from_inhomogeneous_poisson_process fuel (PyNdarray [r]) (PyNdarray times)
    total_pulses true g
  = from_inhomogeneous_poisson_process fuel (PyNdarray (repeat r (length times)))
      (PyNdarray times) total_pulses true g.
Proof.
  intros Hne. unfold from_inhomogeneous_poisson_process, check_types_wrapper.
  cbn [nth_error isinstance_ndarray callable negb andb].
  destruct times as [|t0 rest]; [contradiction|].
  set (times := t0 :: rest).
  change (length times) with (S (length rest)) at 1.
  rewrite any_negative_repeat.
  destruct (any_negative [r]); [reflexivity|].
  destruct (negb (isinstance_int total_pulses)); [reflexivity|].
  unfold from_inhomogeneous_poisson_process_func.
  destruct total_pulses as [| |n|b| |]; try reflexivity;
    unfold bind at 1 5; unfold lift; cbn [prepare_rate negb];
    unfold bind at 1 4; rewrite accumulate_single; reflexivity.
Qed.

End SingleRate.

(** ** The further properties at concrete inputs

    The runs use the instances [libm_model] and [lcg] as above. *)

(** X2 at a call that gives the rate and the time axis by position and
    [total_pulses] by keyword. *)
Lemma check_types_missing_arguments_witness :
  (length [PyNdarray [1]%float; PyNdarray ts10] < 3)%nat /\
  check_types_wrapper (RS := lcg) [PyNdarray [1]%float; PyNdarray ts10]
    (ret (RS := lcg) 0%Z) 42%N
  = (Raise IndexError, 42%N).
Proof.
  assert (Hlen : (length [PyNdarray [1]%float; PyNdarray ts10] < 3)%nat) by (simpl; lia).
  split; [exact Hlen |].
  destruct (@check_types_missing_arguments lcg Z [PyNdarray [1]%float; PyNdarray ts10]
              (ret (RS := lcg) 0%Z) 42%N Hlen) as (e & Hrun & He).
  rewrite Hrun. rewrite (He eq_refl eq_refl). reflexivity.
Defined.

(** X3 at a single time sample, and at an array rate to be aligned to an
    empty axis. *)
Lemma short_time_axis_raises_witness :
  (accepted_rate (PyCallable five_rate) = true /\
   (length [0]%float < 2)%nat /\
   (1 <= 3)%Z /\
   from_inhomogeneous_poisson_process (L := libm_model) (RS := lcg) 4
     (PyCallable five_rate) (PyNdarray [0]%float) (PyInt 3) false 42%N
   = (Raise IndexError, 42%N)) /\
  (accepted_rate (PyNdarray [1; 2]%float) = true /\
   (length (@nil float) < 2)%nat /\
   from_inhomogeneous_poisson_process (L := libm_model) (RS := lcg) 4
     (PyNdarray [1; 2]%float) (PyNdarray []) (PyInt 3) false 42%N
   = (Raise ZeroDivisionError, 42%N)).
Proof.
  assert (Ha : accepted_rate (PyCallable five_rate) = true) by reflexivity.
  assert (Hb : accepted_rate (PyNdarray [1; 2]%float) = true) by reflexivity.
  assert (Hl : (length [0]%float < 2)%nat) by (simpl; lia).
  assert (Hl0 : (length (@nil float) < 2)%nat) by (simpl; lia).
  assert (Hn : (1 <= 3)%Z) by lia.
  split.
  - repeat (split; [assumption |]).
    exact (@short_time_axis_raises libm_model lcg 3 _ _ 3 false 42%N Ha Hl Hn).
  - repeat (split; [assumption |]).
    exact (@short_time_axis_raises libm_model lcg 3 _ _ 3 false 42%N Hb Hl0 Hn).
Defined.

(** X4 at three rate values over the ten samples of [ts10]. *)
Lemma shape_mismatch_raises_witness :
  any_negative [1; 2; 3]%float = false /\
  (2 <= length ts10)%nat /\
  length [1; 2; 3]%float <> length ts10 /\
  length [1; 2; 3]%float <> 1%nat /\
  (1 <= 3)%Z /\
  from_inhomogeneous_poisson_process (L := libm_model) (RS := lcg) 4
    (PyNdarray [1; 2; 3]%float) (PyNdarray ts10) (PyInt 3) true 42%N
  = (Raise ValueError, 457466634992928148%N).
Proof.
  assert (Hneg : any_negative [1; 2; 3]%float = false) by reflexivity.
  assert (Hl : (2 <= length ts10)%nat) by (simpl; lia).
  assert (Hne : length [1; 2; 3]%float <> length ts10) by (simpl; lia).
  assert (H1 : length [1; 2; 3]%float <> 1%nat) by (simpl; lia).
  assert (Hn : (1 <= 3)%Z) by lia.
  repeat (split; [assumption |]).
  rewrite (@shape_mismatch_raises libm_model lcg 3 _ _ 3 42%N Hneg Hl Hne H1 Hn).
  vm_compute. reflexivity.
Defined.

(** X5 at minus two pulses. *)
Lemma negative_pulses_raise_witness :
  accepted_rate (PyCallable zero_rate) = true /\
  ts10 <> [] /\
  (-2 < 0)%Z /\
  from_inhomogeneous_poisson_process (L := libm_model) (RS := lcg) 4
    (PyCallable zero_rate) (PyNdarray ts10) (PyInt (-2)) false 42%N
  = (Raise ValueError, 42%N).
Proof.
  assert (Ha : accepted_rate (PyCallable zero_rate) = true) by reflexivity.
  assert (Hne : ts10 <> []) by discriminate.
  assert (Hn : (-2 < 0)%Z) by lia.
  repeat (split; [assumption |]).
  exact (@negative_pulses_raise libm_model lcg 4 _ _ _ false 42%N Ha Hne Hn).
Defined.

(** X6 at the callable [five_rate] over [ts10], five pulses. *)
Lemma callable_returned_members_witness :
  from_inhomogeneous_poisson_process (L := libm_model) (RS := lcg) 5
    (PyCallable five_rate) (PyNdarray ts10) (PyInt 5) false 42%N
  = (Ok [1; 4; 7; 8; 9]%float, 14681447096454308151%N) /\
  forall x, In x [1; 4; 7; 8; 9]%float -> In x ts10.
Proof.
  assert (H : from_inhomogeneous_poisson_process (L := libm_model) (RS := lcg) 5
                (PyCallable five_rate) (PyNdarray ts10) (PyInt 5) false 42%N
              = (Ok [1; 4; 7; 8; 9]%float, 14681447096454308151%N))
    by (vm_compute; reflexivity).
  split; [exact H |].
  exact (@callable_returned_members libm_model lcg 5 _ _ _ _ _ _ _ H).
Defined.

(** X7 at a constant rate 5 over [ts10], five pulses. *)
Lemma arrivals_have_positive_probability_witness :
  from_inhomogeneous_poisson_process (L := libm_model) (RS := lcg) 5
    (PyNdarray (repeat 5%float 10)) (PyNdarray ts10) (PyInt 5) true 42%N
  = (Ok [1; 4; 7; 8; 9]%float, 14681447096454308151%N) /\
  prepare_rate (PyNdarray (repeat 5%float 10)) ts10 true
  = Ok (PyNdarray (repeat 5%float 10)) /\
  length (repeat 5%float 10) = length ts10 /\
  forall x, In x [1; 4; 7; 8; 9]%float ->
    exists i delta,
      time_step ts10 = Ok delta /\
      nth_error ts10 i = Some x /\
      is_zero (nth i (repeat 5%float 10) 0%float) = false /\
      (0 <? thinning (L := libm_model) delta (nth i (repeat 5%float 10) 0))%float = true.
Proof.
  assert (H : from_inhomogeneous_poisson_process (L := libm_model) (RS := lcg) 5
                (PyNdarray (repeat 5%float 10)) (PyNdarray ts10) (PyInt 5) true 42%N
              = (Ok [1; 4; 7; 8; 9]%float, 14681447096454308151%N))
    by (vm_compute; reflexivity).
  assert (Hp : prepare_rate (PyNdarray (repeat 5%float 10)) ts10 true
               = Ok (PyNdarray (repeat 5%float 10))) by reflexivity.
  assert (Hl : length (repeat 5%float 10) = length ts10) by reflexivity.
  repeat (split; [assumption |]).
  exact (@arrivals_have_positive_probability libm_model lcg 5 _ _ _ _ _ _ _ _ H Hp Hl).
Defined.

(** X8 at four rate values, four pulses, over [ts10]. *)
Lemma from_cumsum_length_witness :
  from_cumsum (RS := lcg) (PyNdarray [1; 1; 2; 4]%float) (PyNdarray ts10) (PyInt 4) true
    42%N
  = (Ok [1.125; 2.25; 4.5; 9]%float, 42%N) /\
  Z.of_nat (length [1.125; 2.25; 4.5; 9]%float) = 4%Z /\ 42%N = 42%N.
Proof.
  assert (H : from_cumsum (RS := lcg) (PyNdarray [1; 1; 2; 4]%float) (PyNdarray ts10)
                (PyInt 4) true 42%N
              = (Ok [1.125; 2.25; 4.5; 9]%float, 42%N)) by (vm_compute; reflexivity).
  split; [exact H |].
  exact (@from_cumsum_length lcg _ _ _ _ _ _ _ H).
Defined.

(** X9 at nine rate values and four pulses: every second value is kept,
    the ninth is cut off. *)
Lemma from_cumsum_subsamples_witness :
  any_negative [1; 5; 1; 5; 2; 5; 4; 5; 7]%float = false /\
  ts10 <> [] /\
  (1 <= 4 <= Z.of_nat (length [1; 5; 1; 5; 2; 5; 4; 5; 7]%float))%Z /\
  exists picked out,
    picked = [1; 1; 2; 4]%float /\
    from_cumsum (RS := lcg) (PyNdarray [1; 5; 1; 5; 2; 5; 4; 5; 7]%float) (PyNdarray ts10)
      (PyInt 4) false 42%N = (Ok out, 42%N) /\
    from_cumsum (RS := lcg) (PyNdarray picked) (PyNdarray ts10) (PyInt 4) true 42%N
    = (Ok out, 42%N).
Proof.
  assert (Hneg : any_negative [1; 5; 1; 5; 2; 5; 4; 5; 7]%float = false) by reflexivity.
  assert (Hne : ts10 <> []) by discriminate.
  assert (Hn : (1 <= 4 <= Z.of_nat (length [1; 5; 1; 5; 2; 5; 4; 5; 7]%float))%Z)
    by (simpl; lia).
  repeat (split; [assumption |]).
  destruct (@from_cumsum_subsamples lcg _ _ _ 42%N Hneg Hne Hn)
    as (picked & out & Hlen & Hnth & Hrun & Hsame).
  exists picked, out. split; [| split; assumption].
  destruct picked as [|p0 [|p1 [|p2 [|p3 [|p4 picked]]]]]; try discriminate Hlen.
  pose proof (Hnth 0%nat ltac:(simpl; lia)) as H0.
  pose proof (Hnth 1%nat ltac:(simpl; lia)) as H1.
  pose proof (Hnth 2%nat ltac:(simpl; lia)) as H2.
  pose proof (Hnth 3%nat ltac:(simpl; lia)) as H3.
  cbn in H0, H1, H2, H3. subst. reflexivity.
Defined.

(** X10 at zero pulses with [same_shape] false, and at a rate of the
    requested length. *)
Lemma from_cumsum_outcome_witness :
  (any_negative [1; 1; 2; 4]%float = false /\
   from_cumsum (RS := lcg) (PyNdarray [1; 1; 2; 4]%float) (PyNdarray ts10) (PyInt 0) false
     42%N
   = (Raise ZeroDivisionError, 42%N) /\
   false = false /\ 0%Z = 0%Z) /\
  (from_cumsum (RS := lcg) (PyNdarray [1; 1; 2; 4]%float) (PyNdarray ts10) (PyInt 4) true
     42%N
   = (Ok [1.125; 2.25; 4.5; 9]%float, 42%N) /\
   ts10 <> [] /\
   Z.of_nat (length [1; 1; 2; 4]%float) = 4%Z /\
   Z.of_nat (length [1.125; 2.25; 4.5; 9]%float) = 4%Z).
Proof.
  assert (Hneg : any_negative [1; 1; 2; 4]%float = false) by reflexivity.
  split.
  - split; [exact Hneg |]. split; [vm_compute; reflexivity |].
    exact (proj2 (@from_cumsum_outcome lcg _ ts10 0 false 42%N Hneg)).
  - split; [vm_compute; reflexivity |].
    exact (proj2 (@from_cumsum_outcome lcg _ ts10 4 true 42%N Hneg)).
Defined.

(** X11 at the single rate value 5 over [ts10]. *)
Lemma single_rate_is_constant_witness :
  ts10 <> [] /\
  from_inhomogeneous_poisson_process (L := libm_model) (RS := lcg) 5
    (PyNdarray [5]%float) (PyNdarray ts10) (PyInt 5) true 42%N
  = (Ok [1; 4; 7; 8; 9]%float, 14681447096454308151%N).
Proof.
  assert (Hne : ts10 <> []) by discriminate.
  split; [exact Hne |].
  rewrite (@single_rate_is_constant libm_model lcg 5 5%float ts10 (PyInt 5) 42%N Hne).
  vm_compute. reflexivity.
Defined.
